(** * The completion-response adapter [OpenAIHandler]

    A shallow embedding of [backend/src/openai_handler.py] and the
    properties of its natural-language specification.

    The adapter is one Python class with a class attribute
    ([_client_instance]) and three static methods.  It calls four things it
    does not define: the secrets provider, the OpenAI SDK, [json.loads] and
    the string conversion of an f-string.  They are gathered in the record
    [Collaborators]; the adapter is embedded over an arbitrary value of that
    record, and a concrete one ([Mock.collaborators], with the JSON decoder
    of module [Json] and the [repr] of module [Py]) runs it on actual
    replies. *)

From Stdlib Require Import String Ascii List ZArith Bool Arith Lia DecimalString.
Import ListNotations.
Open Scope string_scope.

Set Warnings "-register-all".

(** ** Python values, exceptions and the operators the adapter applies *)

Module Py.

(** The values [json.loads] can build.  A [str] is held as a Rocq string
    (its UTF-8 bytes); a [float] is held as the literal it was read from
    ([PyFloat lex] stands for [float(lex)], binary floating point is not
    interpreted); a [dict] is the list of its items in insertion order. *)
Inductive value : Type :=
| PyNone
| PyBool (b : bool)
| PyInt (z : Z)
| PyFloat (lexeme : string)
| PyStr (s : string)
| PyList (items : list value)
| PyDict (items : list (string * value)).

(** Exceptions.  [ValueError] carries its only argument, the message.
    [JSONDecodeError] is the subclass of [ValueError] of the [json]
    module.  [Foreign] is any exception class of a collaborator (an
    [openai.APIError], whatever the secrets provider raises, ...). *)
Inductive exception : Type :=
| ValueError (msg : string)
| JSONDecodeError
| TypeError
| KeyError (key : string)
| IndexError
| RecursionError
| Foreign (class_name msg : string).

(** The outcome of evaluating an expression or a call. *)
Inductive result (A : Type) : Type :=
| Return (a : A)
| Raise (e : exception).
Arguments Return {A} a.
Arguments Raise {A} e.

(** Truth value of an [Optional[str]]: [None] and [''] are false. *)
Definition truthy (o : option string) : bool :=
  match o with
  | None => false
  | Some s => negb (s =? "")
  end.

(** [needle in hay] for two [str]: substring test. *)
Fixpoint str_contains (needle hay : string) : bool :=
  prefix needle hay
  || match hay with
     | EmptyString => false
     | String _ rest => str_contains needle rest
     end.

(** [key == x] for a [str] key: only an equal [str] compares equal. *)
Definition str_eq_value (key : string) (x : value) : bool :=
  match x with
  | PyStr s => key =? s
  | _ => false
  end.

(** [key in d] for a [dict] with [str] keys. *)
Definition dict_contains (key : string) (d : list (string * value)) : bool :=
  existsb (fun kv => key =? fst kv) d.

(** [d[key]] where it exists. *)
Fixpoint dict_get (key : string) (d : list (string * value)) : option value :=
  match d with
  | [] => None
  | (k, v) :: rest => if key =? k then Some v else dict_get key rest
  end.

(** [d[key] = v]: an existing key keeps its position, a new one goes last
    (this is how [dict(pairs)] treats a repeated key). *)
Fixpoint dict_set (key : string) (v : value) (d : list (string * value))
  : list (string * value) :=
  match d with
  | [] => [(key, v)]
  | (k, x) :: rest =>
      if key =? k then (k, v) :: rest else (k, x) :: dict_set key v rest
  end.

(** [key in container], for a [str] key.  A dict tests its keys, a list its
    elements, a str its substrings; the other values are not containers. *)
Definition contains (key : string) (container : value) : result bool :=
  match container with
  | PyDict d => Return (dict_contains key d)
  | PyList l => Return (existsb (str_eq_value key) l)
  | PyStr s => Return (str_contains key s)
  | PyNone | PyBool _ | PyInt _ | PyFloat _ => Raise TypeError
  end.

(** [container[key]], for a [str] key.  Only a dict can be indexed by a
    str; a list and a str want integers, the other values no index. *)
Definition getitem (container : value) (key : string) : result value :=
  match container with
  | PyDict d =>
      match dict_get key d with
      | Some v => Return v
      | None => Raise (KeyError key)
      end
  | _ => Raise TypeError
  end.

(** *** [repr] and [str]

    What an f-string field [{x}] inserts is [format(x, '')], which is
    [str(x)]; for every value here but a [str] that is [repr(x)]. *)

Definition dquote : ascii := "034"%char.
Definition squote : ascii := "039"%char.
Definition backslash : ascii := "092"%char.

Definition string_of_Z (z : Z) : string := NilZero.string_of_int (Z.to_int z).

Definition hex_digit (n : nat) : ascii :=
  match n with
  | 0 => "0" | 1 => "1" | 2 => "2" | 3 => "3" | 4 => "4" | 5 => "5"
  | 6 => "6" | 7 => "7" | 8 => "8" | 9 => "9" | 10 => "a" | 11 => "b"
  | 12 => "c" | 13 => "d" | 14 => "e" | _ => "f"
  end%char.

Fixpoint has_char (c : ascii) (s : string) : bool :=
  match s with
  | EmptyString => false
  | String x rest => (x =? c)%char || has_char c rest
  end.

(** The quote [repr] of a [str] chooses: a double quote when the text holds
    an apostrophe and no double quote, an apostrophe otherwise. *)
Definition repr_quote (s : string) : ascii :=
  if has_char squote s && negb (has_char dquote s) then dquote else squote.

(** One character of the [repr] of a [str].  The quote and the backslash
    are escaped, tab, newline and carriage return have their letter, the
    other ASCII control characters are written [\xhh].  A byte above 127
    belongs to a non-ASCII character and is copied, which is what CPython
    does for the printable ones (the ones it escapes are outside this
    model). *)
Definition repr_char (quote c : ascii) : string :=
  let n := nat_of_ascii c in
  if (c =? quote)%char || (c =? backslash)%char then String backslash (String c "")
  else if (n =? 9)%nat then String backslash "t"
  else if (n =? 10)%nat then String backslash "n"
  else if (n =? 13)%nat then String backslash "r"
  else if (n <? 32)%nat || (n =? 127)%nat then
    String backslash
      (String "x" (String (hex_digit (n / 16)) (String (hex_digit (n mod 16)) "")))
  else String c "".

Fixpoint repr_chars (quote : ascii) (s : string) : string :=
  match s with
  | EmptyString => EmptyString
  | String c rest => repr_char quote c ++ repr_chars quote rest
  end.

Definition repr_str (s : string) : string :=
  let q := repr_quote s in
  String q (repr_chars q s ++ String q "").

(** [', '.join(parts)] *)
Fixpoint join_comma (parts : list string) : string :=
  match parts with
  | [] => ""
  | [x] => x
  | x :: rest => x ++ ", " ++ join_comma rest
  end.

(** [repr(x)].  The [repr] of a float is the shortest literal that reads
    back to it; binary floating point not being interpreted here, the
    literal it was read from stands for it. *)
Fixpoint repr (x : value) : string :=
  match x with
  | PyNone => "None"
  | PyBool true => "True"
  | PyBool false => "False"
  | PyInt z => string_of_Z z
  | PyFloat lexeme => lexeme
  | PyStr s => repr_str s
  | PyList l => "[" ++ join_comma (map repr l) ++ "]"
  | PyDict d =>
      "{" ++ join_comma (map (fun kv => repr_str (fst kv) ++ ": " ++ repr (snd kv)) d) ++ "}"
  end.

(** [str(x)] *)
Definition str (x : value) : string :=
  match x with
  | PyStr s => s
  | _ => repr x
  end.
End Py.
Import Py.

(** ** [json.loads]

    The decoder of CPython's [json] package ([json/decoder.py],
    [json/scanner.py] and their C accelerator, which is what runs by
    default), for a [str] document.  It is the decoder the mock
    collaborators use; the adapter itself is embedded over any decoder. *)

Module Json.

(** Two interpreter settings the decoder depends on: how many containers may
    still be entered before the recursion limit is hit, and
    [sys.get_int_max_str_digits()] (0 turns the check off). *)
Record limits : Type := { recursion_limit : nat; int_max_str_digits : nat }.

(** The CPython defaults; the decoder is entered a few frames deep, so that
    a little less than the limit of 1000 is left. *)
Definition default_limits : limits :=
  {| recursion_limit := 990; int_max_str_digits := 4300 |}.

(** The outcome of scanning a prefix of the text: a value and the text
    after it, or an exception.  [Exhausted] is the outcome of a loop whose
    counter ran out; the counters are the length of the text, which no loop
    outlasts. *)
Inductive scan (A : Type) : Type :=
| Scanned (a : A) (rest : string)
| Failed (e : exception)
| Exhausted.
Arguments Scanned {A} a rest.
Arguments Failed {A} e.
Arguments Exhausted {A}.

(** A scan of [s] that went on to a text shorter than [s] (no longer than
    [s], for [reaches]) or raised: it did not run out of fuel. *)
Definition advances {A : Type} (s : string) (r : scan A) : Prop :=
  match r with
  | Scanned _ rest => String.length rest < String.length s
  | Failed _ => True
  | Exhausted => False
  end.

Definition reaches {A : Type} (s : string) (r : scan A) : Prop :=
  match r with
  | Scanned _ rest => String.length rest <= String.length s
  | Failed _ => True
  | Exhausted => False
  end.

Definition scan_map {A B : Type} (f : A -> B) (r : scan A) : scan B :=
  match r with
  | Scanned a rest => Scanned (f a) rest
  | Failed e => Failed e
  | Exhausted => Exhausted
  end.

(** [WHITESPACE_STR = ' \t\n\r'] *)
Definition is_ws (c : ascii) : bool :=
  let n := nat_of_ascii c in
  (n =? 32)%nat || (n =? 9)%nat || (n =? 10)%nat || (n =? 13)%nat.

(** [s[WHITESPACE.match(s, end).end():]] *)
Fixpoint skip_ws (s : string) : string :=
  match s with
  | String c rest => if is_ws c then skip_ws rest else s
  | EmptyString => s
  end.

(** [s[n:]] *)
Fixpoint drop (n : nat) (s : string) : string :=
  match n, s with
  | S n', String _ rest => drop n' rest
  | _, _ => s
  end.

(** *** Strings *)

Definition hex_value (c : ascii) : option N :=
  let n := N_of_ascii c in
  if (48 <=? n)%N && (n <=? 57)%N then Some (n - 48)%N
  else if (65 <=? n)%N && (n <=? 70)%N then Some (n - 55)%N
  else if (97 <=? n)%N && (n <=? 102)%N then Some (n - 87)%N
  else None.

Definition hex4 (h1 h2 h3 h4 : ascii) : option N :=
  match hex_value h1, hex_value h2, hex_value h3, hex_value h4 with
  | Some a, Some b, Some c, Some d => Some (((a * 16 + b) * 16 + c) * 16 + d)%N
  | _, _, _, _ => None
  end.

(** The table [BACKSLASH] of the one-letter escapes. *)
Definition BACKSLASH (esc : ascii) : option ascii :=
  if (esc =? dquote)%char then Some dquote
  else if (esc =? backslash)%char then Some backslash
  else if (esc =? "/")%char then Some "/"%char
  else if (esc =? "b")%char then Some "008"%char
  else if (esc =? "f")%char then Some "012"%char
  else if (esc =? "n")%char then Some "010"%char
  else if (esc =? "r")%char then Some "013"%char
  else if (esc =? "t")%char then Some "009"%char
  else None.

(** What a JSON string is made of: a character of the text, or the code
    unit of a [\uXXXX] escape. *)
Inductive piece : Type :=
| Plain (c : ascii)
| Escaped (code : N).

Definition scan_cons {A : Type} (x : A) (r : scan (list A)) : scan (list A) :=
  scan_map (cons x) r.

(** The body of a JSON string, from after its opening quote up to its
    closing quote ([strict] mode: a control character is an error). *)
Fixpoint scan_pieces (s : string) : scan (list piece) :=
  match s with
  | EmptyString => Failed JSONDecodeError
  | String c rest =>
      if (c =? dquote)%char then Scanned [] rest
      else if (c =? backslash)%char then
        match rest with
        | EmptyString => Failed JSONDecodeError
        | String esc rest1 =>
            if (esc =? "u")%char then
              match rest1 with
              | String h1 (String h2 (String h3 (String h4 rest2))) =>
                  match hex4 h1 h2 h3 h4 with
                  | Some code => scan_cons (Escaped code) (scan_pieces rest2)
                  | None => Failed JSONDecodeError
                  end
              | _ => Failed JSONDecodeError
              end
            else
              match BACKSLASH esc with
              | Some ch => scan_cons (Plain ch) (scan_pieces rest1)
              | None => Failed JSONDecodeError
              end
        end
      else if (nat_of_ascii c <? 32)%nat then Failed JSONDecodeError
      else scan_cons (Plain c) (scan_pieces rest)
  end.

(** [chr(code)], as UTF-8 (a lone surrogate in the three-byte form). *)
Definition utf8 (code : N) : string :=
  let byte (n : N) : ascii := ascii_of_N n in
  let tail (n : N) : ascii := ascii_of_N (128 + n mod 64) in
  (if code <? 128 then String (byte code) ""
   else if code <? 2048 then String (byte (192 + code / 64)) (String (tail code) "")
   else if code <? 65536 then
     String (byte (224 + code / 4096))
       (String (tail (code / 64)) (String (tail code) ""))
   else
     String (byte (240 + code / 262144))
       (String (tail (code / 4096))
          (String (tail (code / 64)) (String (tail code) ""))))%N.

Definition is_high_surrogate (code : N) : bool :=
  ((55296 <=? code) && (code <=? 56319))%N.

Definition is_low_surrogate (code : N) : bool :=
  ((56320 <=? code) && (code <=? 57343))%N.

(** [''.join(chunks)]: a high surrogate escape followed at once by a low
    surrogate escape is one character. *)
Fixpoint join_pieces (ps : list piece) : string :=
  match ps with
  | [] => ""
  | Plain c :: rest => String c (join_pieces rest)
  | Escaped uni :: rest =>
      match rest with
      | Escaped uni2 :: rest' =>
          if is_high_surrogate uni && is_low_surrogate uni2 then
            utf8 (65536 + ((uni - 55296) * 1024 + (uni2 - 56320)))%N
            ++ join_pieces rest'
          else utf8 uni ++ join_pieces rest
      | _ => utf8 uni ++ join_pieces rest
      end
  end.

(** [scanstring(s, end)], [s[end:]] being the text after the opening quote. *)
Definition scanstring (s : string) : scan string :=
  scan_map join_pieces (scan_pieces s).

(** *** Numbers

    [NUMBER_RE] has three groups: an integer (an optional minus sign, then
    a zero or a digit from 1 to 9 followed by digits), an optional fraction
    (a dot and one digit or more) and an optional exponent (e or E, an
    optional sign, one digit or more).  The accelerator takes the ASCII
    digits only. *)

Definition is_digit (c : ascii) : bool :=
  let n := nat_of_ascii c in (48 <=? n)%nat && (n <=? 57)%nat.

(** The longest prefix of digits, and what follows it. *)
Fixpoint span_digits (s : string) : string * string :=
  match s with
  | String c rest =>
      if is_digit c then
        let (ds, after) := span_digits rest in (String c ds, after)
      else (EmptyString, s)
  | EmptyString => (EmptyString, EmptyString)
  end.

(** The integer group after its sign: a zero, or a digit from 1 to 9 and
    the digits that follow. *)
Definition match_natural (s : string) : option (string * string) :=
  match s with
  | String c rest =>
      if (c =? "0")%char then Some ("0", rest)
      else if is_digit c then
        let (ds, after) := span_digits rest in Some (String c ds, after)
      else None
  | EmptyString => None
  end.

(** The integer group. *)
Definition match_integer (s : string) : option (string * string) :=
  match s with
  | String c rest =>
      if (c =? "-")%char then
        match match_natural rest with
        | Some (ds, after) => Some (String c ds, after)
        | None => None
        end
      else match_natural s
  | EmptyString => None
  end.

(** The fraction group; empty when it does not match. *)
Definition match_frac (s : string) : string * string :=
  match s with
  | String c rest =>
      if (c =? ".")%char then
        match span_digits rest with
        | (EmptyString, _) => (EmptyString, s)
        | (ds, after) => (String c ds, after)
        end
      else (EmptyString, s)
  | EmptyString => (EmptyString, s)
  end.

(** The exponent group; empty when it does not match. *)
Definition match_exp (s : string) : string * string :=
  match s with
  | String c rest =>
      if (c =? "e")%char || (c =? "E")%char then
        match rest with
        | String sign rest1 =>
            if (sign =? "-")%char || (sign =? "+")%char then
              match span_digits rest1 with
              | (EmptyString, _) => (EmptyString, s)
              | (ds, after) => (String c (String sign ds), after)
              end
            else
              match span_digits rest with
              | (EmptyString, _) => (EmptyString, s)
              | (ds, after) => (String c ds, after)
              end
        | EmptyString => (EmptyString, s)
        end
      else (EmptyString, s)
  | EmptyString => (EmptyString, s)
  end.

Fixpoint digits_value (ds : string) (acc : Z) : Z :=
  match ds with
  | String c rest => digits_value rest (10 * acc + Z.of_nat (nat_of_ascii c - 48))
  | EmptyString => acc
  end.

(** [int(integer)]: above 640 digits the conversion checks the limit. *)
Definition parse_int (lim : limits) (integer : string) : result value :=
  let (negative, ds) :=
    match integer with
    | String c rest => if (c =? "-")%char then (true, rest) else (false, integer)
    | EmptyString => (false, integer)
    end in
  let n := String.length ds in
  let max := int_max_str_digits lim in
  if (640 <? n)%nat && (0 <? max)%nat && (max <? n)%nat then
    Raise (ValueError
             ("Exceeds the limit (" ++ string_of_Z (Z.of_nat max)
              ++ " digits) for integer string conversion: value has "
              ++ string_of_Z (Z.of_nat n)
              ++ " digits; use sys.set_int_max_str_digits() to increase the limit"))
  else
    let v := digits_value ds 0 in
    Return (PyInt (if negative then (- v)%Z else v)).

(** [NUMBER_RE.match] and the conversion of what it matched. *)
Definition scan_number (lim : limits) (s : string) : option (scan value) :=
  match match_integer s with
  | None => None
  | Some (integer, after_integer) =>
      let (frac, after_frac) := match_frac after_integer in
      let (exp, rest) := match_exp after_frac in
      match frac, exp with
      | EmptyString, EmptyString =>
          match parse_int lim integer with
          | Return v => Some (Scanned v rest)
          | Raise e => Some (Failed e)
          end
      | _, _ => Some (Scanned (PyFloat (integer ++ frac ++ exp)) rest)
      end
  end.

(** *** Arrays and objects *)

(** The loop of [JSONArray]: [s] is the text where the next element must
    start, [values] the elements so far. *)
Fixpoint array_items (fuel : nat) (scan_once : string -> scan value)
    (s : string) (values : list value) : scan value :=
  match fuel with
  | O => Exhausted
  | S fuel' =>
      match scan_once s with
      | Scanned v after_value =>
          let values := (values ++ [v])%list in
          match skip_ws after_value with
          | String nextchar rest =>
              if (nextchar =? "]")%char then Scanned (PyList values) rest
              else if (nextchar =? ",")%char then
                array_items fuel' scan_once (skip_ws rest) values
              else Failed JSONDecodeError
          | EmptyString => Failed JSONDecodeError
          end
      | Failed e => Failed e
      | Exhausted => Exhausted
      end
  end.

(** [JSONArray((s, end), scan_once)], [s[end:]] being the text after the
    bracket. *)
Definition JSONArray (scan_once : string -> scan value) (s : string)
  : scan value :=
  match skip_ws s with
  | String nextchar rest =>
      if (nextchar =? "]")%char then Scanned (PyList []) rest
      else array_items (S (String.length s)) scan_once (skip_ws s) []
  | EmptyString => Failed JSONDecodeError
  end.

(** [dict(pairs)]: of two equal keys the first fixes the place, the last
    the value. *)
Definition dict (pairs : list (string * value)) : list (string * value) :=
  fold_left (fun d kv => dict_set (fst kv) (snd kv) d) pairs [].

(** The loop of [JSONObject]: [s] is the text after the opening quote of
    the next key, [pairs] the items so far. *)
Fixpoint object_items (fuel : nat) (scan_once : string -> scan value)
    (s : string) (pairs : list (string * value)) : scan value :=
  match fuel with
  | O => Exhausted
  | S fuel' =>
      match scanstring s with
      | Scanned key after_key =>
          match skip_ws after_key with
          | String colon after_colon =>
              if (colon =? ":")%char then
                match scan_once (skip_ws after_colon) with
                | Scanned v after_value =>
                    let pairs := (pairs ++ [(key, v)])%list in
                    match skip_ws after_value with
                    | String nextchar rest =>
                        if (nextchar =? "}")%char then
                          Scanned (PyDict (dict pairs)) rest
                        else if (nextchar =? ",")%char then
                          match skip_ws rest with
                          | String q after_quote =>
                              if (q =? dquote)%char then
                                object_items fuel' scan_once after_quote pairs
                              else Failed JSONDecodeError
                          | EmptyString => Failed JSONDecodeError
                          end
                        else Failed JSONDecodeError
                    | EmptyString => Failed JSONDecodeError
                    end
                | Failed e => Failed e
                | Exhausted => Exhausted
                end
              else Failed JSONDecodeError
          | EmptyString => Failed JSONDecodeError
          end
      | Failed e => Failed e
      | Exhausted => Exhausted
      end
  end.

(** [JSONObject((s, end), strict, scan_once, ...)], [s[end:]] being the
    text after the brace. *)
Definition JSONObject (scan_once : string -> scan value) (s : string)
  : scan value :=
  match skip_ws s with
  | String nextchar rest =>
      if (nextchar =? "}")%char then Scanned (PyDict []) rest
      else if (nextchar =? dquote)%char then
        object_items (S (String.length s)) scan_once rest []
      else Failed JSONDecodeError
  | EmptyString => Failed JSONDecodeError
  end.

(** *** The scanner *)

(** [scan_once(string, idx)], [string[idx:]] being the text.  Where the
    scanner raises [StopIteration] its callers all raise [JSONDecodeError]
    in its place, which is what stands here.  Entering a container takes
    one of the [depth] levels still allowed. *)
Fixpoint scan_once (lim : limits) (depth : nat) (s : string) : scan value :=
  match s with
  | EmptyString => Failed JSONDecodeError
  | String nextchar rest =>
      if (nextchar =? dquote)%char then scan_map PyStr (scanstring rest)
      else if (nextchar =? "{")%char then
        match depth with
        | O => Failed RecursionError
        | S depth' => JSONObject (scan_once lim depth') rest
        end
      else if (nextchar =? "[")%char then
        match depth with
        | O => Failed RecursionError
        | S depth' => JSONArray (scan_once lim depth') rest
        end
      else if prefix "null" s then Scanned PyNone (drop 4 s)
      else if prefix "true" s then Scanned (PyBool true) (drop 4 s)
      else if prefix "false" s then Scanned (PyBool false) (drop 5 s)
      else
        match scan_number lim s with
        | Some r => r
        | None =>
            if prefix "NaN" s then Scanned (PyFloat "nan") (drop 3 s)
            else if prefix "Infinity" s then Scanned (PyFloat "inf") (drop 8 s)
            else if prefix "-Infinity" s then Scanned (PyFloat "-inf") (drop 9 s)
            else Failed JSONDecodeError
        end
  end.

(** The byte order mark U+FEFF, as UTF-8. *)
Definition BOM : string :=
  String "239"%char (String "187"%char (String "191"%char "")).

(** [json.loads(s)] for a [str]:
    <<
    if s.startswith('\ufeff'):
        raise JSONDecodeError("Unexpected UTF-8 BOM (decode using utf-8-sig)", s, 0)
    obj, end = self.raw_decode(s, idx=_w(s, 0).end())
    end = _w(s, end).end()
    if end != len(s):
        raise JSONDecodeError("Extra data", s, end)
    return obj
    >>
    The scan never ends [Exhausted] ([scan_once_never_exhausted] below), so
    that what stands in that branch is of no consequence. *)
Definition loads (lim : limits) (s : string) : result value :=
  if prefix BOM s then Raise JSONDecodeError
  else
    match scan_once lim (recursion_limit lim) (skip_ws s) with
    | Scanned obj rest =>
        match skip_ws rest with
        | EmptyString => Return obj
        | String _ _ => Raise JSONDecodeError
        end
    | Failed e => Raise e
    | Exhausted => Raise RecursionError
    end.

End Json.

(** ** The OpenAI SDK, as far as the adapter touches it *)

(** A client object.  [object_id] is its identity (two clients are the same
    object when their ids are equal); [api_key] is what it was built with. *)
Record OpenAI : Type := { object_id : nat; api_key : string }.

(** The keyword arguments of [client.chat.completions.create]. *)
Module Params.
Record message : Type := { role : string; content : string }.
Record ResponseFormat : Type := { type : string }.
Record create : Type := {
  model : string;
  response_format : ResponseFormat;
  seed : Z;
  messages : list message
}.
End Params.

(** The reply object, along the path [response.choices[0].message.content]. *)
Module ChatCompletion.
Record Message : Type := { content : option string }.
Record Choice : Type := { message : Message }.
Record t : Type := { choices : list Choice }.
End ChatCompletion.

(** ** What the adapter calls and does not define *)

Record Collaborators : Type := {
  (** everything outside the process: the remote service, the secrets store *)
  World : Type;
  (** [SecretsHandler.get_gpt_prompt()], evaluated once, when the class body
      runs; were it to raise, the class would not exist *)
  get_gpt_prompt : string;
  (** [SecretsHandler.get_openai_key()] *)
  get_openai_key : World -> result string * World;
  (** the remote call behind [client.chat.completions.create] *)
  completions_create :
    OpenAI -> Params.create -> World -> result ChatCompletion.t * World;
  (** [json.loads(doc)] for a [str] *)
  json_loads : string -> result value;
  (** [format(x, '')], what an f-string field inserts *)
  format : value -> string;
  (** of [json.loads] one fact is used: the empty text is no JSON document
      ([json.loads('')] raises "Expecting value") *)
  json_loads_empty : json_loads "" = Raise JSONDecodeError
}.

(** ** The adapter: class [OpenAIHandler] *)

Module OpenAIHandler.

Section Adapter.

Variable env : Collaborators.

(** The state a call runs in: the class attribute [_client_instance], the
    outside world, and three journals that record what the process did
    (the clients it built, the completion requests it sent, the documents
    it handed to [json.loads]), oldest first. *)
Record process : Type := {
  _client_instance : option OpenAI;
  world : World env;
  constructed : list OpenAI;
  requested : list (OpenAI * Params.create);
  decoded : list (option string)
}.

(** A statement sequence: from a state, a result or an exception, and the
    state it leaves. *)
Definition M (A : Type) : Type := process -> result A * process.

Definition ret {A : Type} (a : A) : M A := fun st => (Return a, st).

Definition raise {A : Type} (e : exception) : M A := fun st => (Raise e, st).

Definition bind {A B : Type} (c : M A) (k : A -> M B) : M B :=
  fun st =>
    match c st with
    | (Return a, st') => k a st'
    | (Raise e, st') => (Raise e, st')
    end.

(** [try: c  except: handler] -- a bare [except] takes every exception. *)
Definition try_except {A : Type} (c : M A) (handler : M A) : M A :=
  fun st =>
    match c st with
    | (Return a, st') => (Return a, st')
    | (Raise _, st') => handler st'
    end.

(** An expression that has no effect on the process. *)
Definition eval {A : Type} (r : result A) : M A := fun st => (r, st).

Notation "x <- c ;; k" := (bind c (fun x => k))
  (at level 61, c at next level, right associativity).

(** [SecretsHandler.get_openai_key()] *)
Definition SecretsHandler_get_openai_key : M string :=
  fun st =>
    let (r, w) := get_openai_key env (world st) in
    (r, {| _client_instance := _client_instance st;
           world := w;
           constructed := constructed st;
           requested := requested st;
           decoded := decoded st |}).

(** [OpenAI(api_key=key)]: a new object, unlike every one built before. *)
Definition OpenAI_ (key : string) : M OpenAI :=
  fun st =>
    let c := {| object_id := length (constructed st); api_key := key |} in
    (Return c, {| _client_instance := _client_instance st;
                  world := world st;
                  constructed := constructed st ++ [c];
                  requested := requested st;
                  decoded := decoded st |}).

(** [OpenAIHandler._client_instance = c] *)
Definition set_client_instance (c : OpenAI) : M unit :=
  fun st =>
    (Return tt, {| _client_instance := Some c;
                   world := world st;
                   constructed := constructed st;
                   requested := requested st;
                   decoded := decoded st |}).

(** [client.chat.completions.create(...)]: the request leaves the process,
    the world answers. *)
Definition chat_completions_create (client : OpenAI) (params : Params.create)
  : M ChatCompletion.t :=
  fun st =>
    let (r, w) := completions_create env client params (world st) in
    (r, {| _client_instance := _client_instance st;
           world := w;
           constructed := constructed st;
           requested := requested st ++ [(client, params)];
           decoded := decoded st |}).

(** [json.loads(doc)] where [doc] is an [Optional[str]]: [None] is neither
    str nor bytes, a [TypeError]. *)
Definition json_loads_ (doc : option string) : M value :=
  fun st =>
    (match doc with
     | Some text => json_loads env text
     | None => Raise TypeError
     end,
     {| _client_instance := _client_instance st;
        world := world st;
        constructed := constructed st;
        requested := requested st;
        decoded := decoded st ++ [doc] |}).

(** [l[0]] *)
Definition first {A : Type} (l : list A) : result A :=
  match l with
  | x :: _ => Return x
  | [] => Raise IndexError
  end.

Definition GPT_MODEL : string := "gpt-3.5-turbo".

Definition PROMPT : string := get_gpt_prompt env.

(** <<
    def _initialize_client() -> OpenAI:
        OpenAIHandler._client_instance = OpenAI(
            api_key=SecretsHandler.get_openai_key()
        )
        return OpenAIHandler._client_instance
    >> *)
Definition _initialize_client : M OpenAI :=
  key <- SecretsHandler_get_openai_key ;;
  c <- OpenAI_ key ;;
  _ <- set_client_instance c ;;
  ret c.

(** <<
    def get_client() -> OpenAI:
        if OpenAIHandler._client_instance:
            return OpenAIHandler._client_instance
        return OpenAIHandler._initialize_client()
    >>
    An [OpenAI] object defines neither [__bool__] nor [__len__]: it is
    true, and the test is whether the attribute is [None]. *)
Definition get_client : M OpenAI :=
  fun st =>
    match _client_instance st with
    | Some c => ret c st
    | None => _initialize_client st
    end.

(** The three messages of [get_response]. *)
Definition no_response_message : string :=
  "Something went wrong retrieving a response from GPT. " ++
  "No response was provided.".

Definition not_json_message : string :=
  "Something went wrong retrieving a response from GPT. " ++
  "The provided response could not be parsed into JSON.".

Definition no_genres_message (content_json : value) : string :=
  "Something went wrong retrieving a response from GPT. " ++
  ("The parsed JSON " ++ format env content_json ++ " ") ++
  "does not contain the `genres` key.".

(** <<
    def get_response(sanitized_input: str) -> list[str]:
        client = OpenAIHandler.get_client()
        response = client.chat.completions.create(
            model=OpenAIHandler.GPT_MODEL,
            response_format={"type": "json_object"},
            seed=69,
            messages=[
                {"role": "system", "content": OpenAIHandler.PROMPT},
                {"role": "user", "content": sanitized_input}
            ]
        )
        found_content = response.choices[0].message.content
        if not found_content:
            raise ValueError(...)
        try:
            content_json = json.loads(found_content)
        except:
            raise ValueError(...)
        if not "genres" in content_json:
            raise ValueError(...)
        return content_json['genres']
    >>
    The annotation [list[str]] is not checked by Python: the function
    returns whatever value sits under the key. *)
Definition get_response (sanitized_input : string) : M value :=
  client <- get_client ;;
  response <- chat_completions_create client
    {| Params.model := GPT_MODEL;
       Params.response_format := {| Params.type := "json_object" |};
       Params.seed := 69;
       Params.messages :=
         [ {| Params.role := "system"; Params.content := PROMPT |};
           {| Params.role := "user"; Params.content := sanitized_input |} ] |} ;;
  choice <- eval (first (ChatCompletion.choices response)) ;;
  let found_content := ChatCompletion.content (ChatCompletion.message choice) in
  if negb (truthy found_content) then
    raise (ValueError no_response_message)
  else
    content_json <- try_except (json_loads_ found_content)
                               (raise (ValueError not_json_message)) ;;
    has_genres <- eval (contains "genres" content_json) ;;
    if negb has_genres then
      raise (ValueError (no_genres_message content_json))
    else
      eval (getitem content_json "genres").

(** What a caller of the public interface can do, and a run of such calls. *)
Inductive call : Type :=
| Call_get_client
| Call_get_response (sanitized_input : string).

Definition perform (c : call) (st : process) : process :=
  match c with
  | Call_get_client => snd (get_client st)
  | Call_get_response sanitized_input => snd (get_response sanitized_input st)
  end.

Definition run (calls : list call) (st : process) : process :=
  fold_left (fun s c => perform c s) calls st.

(** The process when the class has just been defined:
    [_client_instance: OpenAI | None = None], nothing done yet. *)
Definition start (w : World env) : process :=
  {| _client_instance := None;
     world := w;
     constructed := [];
     requested := [];
     decoded := [] |}.

End Adapter.

Arguments ret {env A} a st.
Arguments raise {env A} e st.
Arguments bind {env A B} c k st.
Arguments try_except {env A} c handler st.
Arguments eval {env A} r st.
Arguments _client_instance {env} _.
Arguments world {env} _.
Arguments constructed {env} _.
Arguments requested {env} _.
Arguments decoded {env} _.

End OpenAIHandler.
Import OpenAIHandler.

(** ** Mock collaborators

    A secrets provider that answers [key], a remote service that answers
    [answer] to every request, CPython's decoder and [str]. *)

Module Mock.

(** The text with each apostrophe turned into a double quote, to write a
    JSON document down: [json_text "{'mood':'happy'}"]. *)
Fixpoint json_text (s : string) : string :=
  match s with
  | EmptyString => EmptyString
  | String c rest =>
      String (if (c =? squote)%char then dquote else c) (json_text rest)
  end.

(** [n] times the text [s]. *)
Fixpoint times (n : nat) (s : string) : string :=
  match n with
  | O => ""
  | S n' => s ++ times n' s
  end.

(** A reply with one choice, whose message has the given content. *)
Definition reply (content : option string) : result ChatCompletion.t :=
  Return
    {| ChatCompletion.choices :=
         [ {| ChatCompletion.message :=
                {| ChatCompletion.content := content |} |} ] |}.

Definition collaborators (key : result string)
    (answer : result ChatCompletion.t) : Collaborators :=
  {| World := unit;
     get_gpt_prompt := "Name five music genres that fit the mood.";
     get_openai_key := fun w => (key, w);
     completions_create := fun _ _ w => (answer, w);
     json_loads := Json.loads Json.default_limits;
     format := Py.str;
     json_loads_empty := eq_refl |}.

(** The remote service answers the text [content]; the key is there. *)
Definition answering (content : option string) : Collaborators :=
  collaborators (Return "sk-test") (reply content).

(** The process of that mock when the class has just been defined, and a
    call of [get_response] in it. *)
Definition fresh (content : option string) : process (answering content) :=
  start (answering content) tt.

Definition call (content : option string) (sanitized_input : string)
  : result value * process (answering content) :=
  get_response (answering content) sanitized_input (fresh content).

End Mock.

(** ** The vocabulary of the specification *)

(** The keyword arguments [get_response] passes to the remote call. *)
Definition request_for (env : Collaborators) (sanitized_input : string)
  : Params.create :=
  {| Params.model := "gpt-3.5-turbo";
     Params.response_format := {| Params.type := "json_object" |};
     Params.seed := 69;
     Params.messages :=
       [ {| Params.role := "system"; Params.content := get_gpt_prompt env |};
         {| Params.role := "user"; Params.content := sanitized_input |} ] |}.

(** "The remote reply has message content [found]": run from [st] on
    [sanitized_input], the adapter obtains its client, the remote call
    returns a reply, the reply has a first choice, and the content of its
    message is [found]. *)
Inductive remote_reply (env : Collaborators) (st : process env)
    (sanitized_input : string) (found : option string) : Prop :=
| remote_reply_intro (client : OpenAI) (st1 : process env)
    (response : ChatCompletion.t) (w : World env)
    (choice : ChatCompletion.Choice) (others : list ChatCompletion.Choice) :
    get_client env st = (Return client, st1) ->
    completions_create env client (request_for env sanitized_input) (world st1)
      = (Return response, w) ->
    ChatCompletion.choices response = choice :: others ->
    ChatCompletion.content (ChatCompletion.message choice) = found ->
    remote_reply env st sanitized_input found.

(** The four error kinds of the specification's taxonomy. *)
Inductive error_kind : Type :=
| ConfigurationError
| EmptyReplyError
| MalformedReplyError
| MissingFieldError.

(** How an exception that leaves [get_response], run from [st], reads in
    that taxonomy.  The adapter has no exception class of its own: the
    three reply errors are [ValueError]s told apart by their message, and a
    configuration error is whatever the secrets provider raises. *)
Inductive kind_of (env : Collaborators) (st : process env)
  : exception -> error_kind -> Prop :=
| kind_configuration (e : exception) (w : World env) :
    get_openai_key env (world st) = (Raise e, w) ->
    kind_of env st e ConfigurationError
| kind_empty :
    kind_of env st (ValueError no_response_message) EmptyReplyError
| kind_malformed :
    kind_of env st (ValueError not_json_message) MalformedReplyError
| kind_missing (content_json : value) :
    kind_of env st (ValueError (no_genres_message env content_json))
      MissingFieldError.

(** The outcome the specification promises: a sequence of strings, or an
    exception of one of the four kinds. *)
Definition documented_outcome (env : Collaborators) (st : process env)
    (r : result value) : Prop :=
  (exists genres : list string, r = Return (PyList (map PyStr genres)))
  \/ (exists e k, r = Raise e /\ kind_of env st e k).

(** When an exception of each kind leaves [get_response], run from [st] on
    [sanitized_input]: the trigger of the kind, in the terms of the code. *)
Inductive labelled_error (env : Collaborators) (st : process env)
    (sanitized_input : string) : exception -> error_kind -> Prop :=
| error_configuration (e : exception) (st1 : process env) :
    get_client env st = (Raise e, st1) ->
    labelled_error env st sanitized_input e ConfigurationError
| error_empty (found : option string) :
    remote_reply env st sanitized_input found ->
    found = None \/ found = Some "" ->
    labelled_error env st sanitized_input
      (ValueError no_response_message) EmptyReplyError
| error_malformed (text : string) (e : exception) :
    remote_reply env st sanitized_input (Some text) ->
    text <> "" ->
    json_loads env text = Raise e ->
    labelled_error env st sanitized_input
      (ValueError not_json_message) MalformedReplyError
| error_missing (text : string) (d : list (string * value)) :
    remote_reply env st sanitized_input (Some text) ->
    json_loads env text = Return (PyDict d) ->
    dict_contains "genres" d = false ->
    labelled_error env st sanitized_input
      (ValueError (no_genres_message env (PyDict d))) MissingFieldError.

(** The outcome the code gives: the value stored under [genres] in the
    object the content of the reply decoded to, whatever that value is, or
    an exception of one of the four kinds, raised on the trigger of its
    kind. *)
Definition labelled_outcome (env : Collaborators) (st : process env)
    (sanitized_input : string) (r : result value) : Prop :=
  (exists text d v,
      remote_reply env st sanitized_input (Some text)
      /\ json_loads env text = Return (PyDict d)
      /\ dict_get "genres" d = Some v
      /\ r = Return v)
  \/ (exists e k,
        r = Raise e
        /\ kind_of env st e k
        /\ labelled_error env st sanitized_input e k).

(** "The content, where it can be decoded, is a JSON object." *)
Definition object_if_decoded (env : Collaborators) (found : option string)
  : Prop :=
  forall text v,
    found = Some text -> json_loads env text = Return v ->
    exists d, v = PyDict d.

(** The class invariant of the lazily built client: the attribute holds
    the only client ever built, or none was built. *)
Definition singleton (env : Collaborators) (st : process env) : Prop :=
  match _client_instance st with
  | None => constructed st = []
  | Some c => constructed st = [c]
  end.

(** ** The rest of the class: the constructor and direct calls *)

(** <<
    def __init__(self) -> None:
        raise TypeError(
            "OpenAIHandler instances should not be created.",
            "Consider using `get_client()`"
        )
    >>
    [OpenAIHandler()] runs it on a new instance; the exception leaves no
    instance behind. *)
Definition __init__ (env : Collaborators) : M env unit := raise TypeError.

(** Every way to use the class: the two public methods, and the two uses
    its docstrings advise against, [_initialize_client()] called from
    outside and [OpenAIHandler()]. *)
Inductive member_call : Type :=
| Public (c : call)
| Direct_initialize_client
| Instantiate.

Definition perform_member (env : Collaborators) (c : member_call)
    (st : process env) : process env :=
  match c with
  | Public c => perform env c st
  | Direct_initialize_client => snd (_initialize_client env st)
  | Instantiate => snd (__init__ env st)
  end.

Definition run_members (env : Collaborators) (calls : list member_call)
    (st : process env) : process env :=
  fold_left (fun s c => perform_member env c s) calls st.

(** The client built last, if any. *)
Definition latest (clients : list OpenAI) : option OpenAI :=
  match rev clients with
  | [] => None
  | c :: _ => Some c
  end.

(** The clients built so far are numbered in the order they were built. *)
Definition ranked (env : Collaborators) (st : process env) : Prop :=
  map object_id (constructed st) = seq 0 (length (constructed st)).

(** The inputs of the [get_response] calls of a run. *)
Fixpoint inputs_of (calls : list call) : list string :=
  match calls with
  | [] => []
  | Call_get_client :: rest => inputs_of rest
  | Call_get_response sanitized_input :: rest =>
      sanitized_input :: inputs_of rest
  end.

(** A reply with the given choices, for the mock. *)
Definition reply_with_choices (choices : list (option string))
  : result ChatCompletion.t :=
  Return
    {| ChatCompletion.choices :=
         map (fun content =>
                {| ChatCompletion.message :=
                     {| ChatCompletion.content := content |} |})
             choices |}.

(** Mock collaborators whose reply has the given content in its first
    choice and, after it, one more choice per message of the request,
    repeating that message: the other choices vary with the input. *)
Definition mock_repeating (content : option string) : Collaborators :=
  {| World := unit;
     get_gpt_prompt := "Name five music genres that fit the mood.";
     get_openai_key := fun w => (Return "sk-test", w);
     completions_create :=
       fun _ params w =>
         (reply_with_choices
            (content
             :: map (fun m => Some (Params.content m))
                    (Params.messages params)),
          w);
     json_loads := Json.loads Json.default_limits;
     format := Py.str;
     json_loads_empty := eq_refl |}.

(** Three more mocks: a secrets provider without the key, a remote service
    that refuses the request, and one whose reply has no choice. *)
Definition mock_no_key : Collaborators :=
  Mock.collaborators (Raise (Foreign "KeyError" "OPENAI_KEY")) (Mock.reply None).

Definition mock_rate_limited : Collaborators :=
  Mock.collaborators (Return "sk-test") (Raise (Foreign "RateLimitError" "429")).

Definition mock_no_choice : Collaborators :=
  Mock.collaborators (Return "sk-test") (reply_with_choices []).

(** What holds of the journal of requests along a run, [inputs] being the
    inputs [get_response] was called with so far. *)
Definition requests_accounted (env : Collaborators) (st : process env)
    (inputs : list string) : Prop :=
  singleton env st
  /\ (forall client params,
        In (client, params) (requested st) ->
        constructed st = [client]
        /\ exists sanitized_input,
             In sanitized_input inputs
             /\ params = request_for env sanitized_input)
  /\ length (requested st) <= length inputs.

(** The two facts every member of the class keeps: the clients are
    numbered as they are built, and the attribute holds the last one. *)
Definition latest_stored (env : Collaborators) (st : process env) : Prop :=
  ranked env st /\ _client_instance st = latest (constructed st).

(** * Properties *)

(** ** The decoder never runs out of fuel *)

Module JsonProgress.
Import Json.

Lemma skip_ws_length (s : string) :
  String.length (skip_ws s) <= String.length s.
Proof.
  induction s as [|c s IH]; cbn [skip_ws]; [lia|].
  destruct (is_ws c); cbn [String.length]; lia.
Qed.

Lemma advances_map {A B : Type} (f : A -> B) (s : string) (r : scan A) :
  advances s r -> advances s (scan_map f r).
Proof. destruct r; exact (fun H => H). Qed.

Lemma advances_longer {A : Type} (s s' : string) (r : scan A) :
  String.length s <= String.length s' -> advances s r -> advances s' r.
Proof. destruct r; cbn [advances]; [lia|trivial|trivial]. Qed.

Lemma advances_reaches {A : Type} (c : ascii) (s : string) (r : scan A) :
  reaches s r -> advances (String c s) r.
Proof. destruct r; cbn [advances reaches String.length]; [lia|trivial|trivial]. Qed.

(** The body of a string is scanned past its closing quote or not at all. *)
Lemma scan_pieces_reaches (n : nat) :
  forall s, String.length s <= n -> advances (String dquote s) (scan_pieces s).
Proof.
  induction n as [|n IH]; intros s Hn.
  - destruct s; [exact I|cbn [String.length] in Hn; lia].
  - destruct s as [|c rest]; [exact I|].
    cbn [String.length] in Hn. cbn [scan_pieces].
    destruct (c =? dquote)%char; [cbn [advances String.length]; lia|].
    destruct (c =? backslash)%char.
    + destruct rest as [|esc rest1]; [exact I|].
      cbn [String.length] in Hn.
      destruct (esc =? "u")%char.
      * destruct rest1 as [|h1 [|h2 [|h3 [|h4 rest2]]]]; try exact I.
        cbn [String.length] in Hn.
        destruct (hex4 h1 h2 h3 h4); [|exact I].
        unfold scan_cons. apply advances_map.
        apply (advances_longer (String dquote rest2));
          [cbn [String.length]; lia|apply IH; lia].
      * destruct (BACKSLASH esc); [|exact I].
        unfold scan_cons. apply advances_map.
        apply (advances_longer (String dquote rest1));
          [cbn [String.length]; lia|apply IH; lia].
    + destruct (nat_of_ascii c <? 32)%nat; [exact I|].
      unfold scan_cons. apply advances_map.
      apply (advances_longer (String dquote rest));
        [cbn [String.length]; lia|apply IH; lia].
Qed.

Lemma scanstring_reaches (s : string) : reaches s (scanstring s).
Proof.
  unfold scanstring.
  pose proof (scan_pieces_reaches (String.length s) s (le_n _)) as H.
  destruct (scan_pieces s); cbn [scan_map advances reaches String.length] in *;
    [lia|trivial|trivial].
Qed.

Lemma span_digits_length (s : string) :
  String.length (snd (span_digits s)) <= String.length s.
Proof.
  induction s as [|c s IH]; cbn [span_digits]; [cbn; lia|].
  destruct (is_digit c); [|cbn; lia].
  destruct (span_digits s) as [ds after]. cbn [snd String.length] in *. lia.
Qed.

Lemma match_natural_length (s ds after : string) :
  match_natural s = Some (ds, after) ->
  String.length after < String.length s.
Proof.
  destruct s as [|c rest]; cbn [match_natural]; [discriminate|].
  destruct (c =? "0")%char.
  - intros H. inversion H; subst. cbn [String.length]. lia.
  - destruct (is_digit c); [|discriminate].
    pose proof (span_digits_length rest) as Hs.
    destruct (span_digits rest) as [ds' after']. cbn [snd] in Hs.
    intros H. inversion H; subst. cbn [String.length]. lia.
Qed.

Lemma match_integer_length (s ds after : string) :
  match_integer s = Some (ds, after) ->
  String.length after < String.length s.
Proof.
  destruct s as [|c rest]; cbn [match_integer]; [discriminate|].
  destruct (c =? "-")%char.
  - destruct (match_natural rest) as [[ds' after']|] eqn:Hn; [|discriminate].
    apply match_natural_length in Hn.
    intros H. inversion H; subst. cbn [String.length]. lia.
  - apply match_natural_length.
Qed.

Lemma match_frac_length (s : string) :
  String.length (snd (match_frac s)) <= String.length s.
Proof.
  destruct s as [|c rest]; cbn [match_frac]; [cbn; lia|].
  destruct (c =? ".")%char; [|cbn; lia].
  pose proof (span_digits_length rest) as Hs.
  destruct (span_digits rest) as [[|d ds] after]; cbn [snd String.length] in *;
    lia.
Qed.

Lemma match_exp_length (s : string) :
  String.length (snd (match_exp s)) <= String.length s.
Proof.
  destruct s as [|c rest]; cbn [match_exp]; [cbn; lia|].
  destruct ((c =? "e")%char || (c =? "E")%char); [|cbn; lia].
  destruct rest as [|sign rest1]; [cbn; lia|].
  destruct ((sign =? "-")%char || (sign =? "+")%char).
  - pose proof (span_digits_length rest1) as Hs.
    destruct (span_digits rest1) as [[|d ds] after];
      cbn [snd String.length] in *; lia.
  - pose proof (span_digits_length (String sign rest1)) as Hs.
    destruct (span_digits (String sign rest1)) as [[|d ds] after];
      cbn [snd String.length] in *; lia.
Qed.

Lemma scan_number_advances (lim : limits) (s : string) (r : scan value) :
  scan_number lim s = Some r -> advances s r.
Proof.
  unfold scan_number.
  destruct (match_integer s) as [[integer after_integer]|] eqn:Hi;
    [|discriminate].
  apply match_integer_length in Hi.
  pose proof (match_frac_length after_integer) as Hf.
  destruct (match_frac after_integer) as [frac after_frac].
  pose proof (match_exp_length after_frac) as He.
  destruct (match_exp after_frac) as [exp rest].
  cbn [snd] in Hf, He.
  destruct frac; [destruct exp|].
  - destruct (parse_int lim integer); intros H; inversion H; subst;
      cbn [advances]; [lia|trivial].
  - intros H; inversion H; subst. cbn [advances]. lia.
  - intros H; inversion H; subst. cbn [advances]. lia.
Qed.

Lemma drop_length (n : nat) (s : string) :
  String.length (drop n s) <= String.length s.
Proof.
  revert s. induction n as [|n IH]; intros s; [cbn; lia|].
  destruct s as [|c rest]; cbn [drop String.length]; [lia|].
  specialize (IH rest). lia.
Qed.

Lemma drop_advances (n : nat) (c : ascii) (s : string) :
  String.length (drop (S n) (String c s)) < String.length (String c s).
Proof.
  cbn [drop String.length]. pose proof (drop_length n s). lia.
Qed.

Section Loops.

Variable scan_value : string -> scan value.
Hypothesis scan_value_advances : forall s, advances s (scan_value s).

Lemma array_items_reaches (fuel : nat) :
  forall s values,
    String.length s < fuel ->
    reaches s (array_items fuel scan_value s values).
Proof.
  induction fuel as [|fuel IH]; intros s values Hfuel; [lia|].
  cbn [array_items].
  pose proof (scan_value_advances s) as Hv.
  destruct (scan_value s) as [v after_value| |]; cbn [advances] in Hv;
    [|exact I|contradiction].
  pose proof (skip_ws_length after_value) as Hw.
  destruct (skip_ws after_value) as [|nextchar rest]; [exact I|].
  cbn [String.length] in Hw.
  destruct (nextchar =? "]")%char; [cbn [reaches]; lia|].
  destruct (nextchar =? ",")%char; [|exact I].
  pose proof (skip_ws_length rest) as Hw'.
  specialize (IH (skip_ws rest) (values ++ [v])%list ltac:(lia)).
  destruct (array_items fuel scan_value (skip_ws rest) (values ++ [v]));
    cbn [reaches] in *; [lia|trivial|trivial].
Qed.

Lemma JSONArray_reaches (s : string) : reaches s (JSONArray scan_value s).
Proof.
  unfold JSONArray.
  pose proof (skip_ws_length s) as Hw.
  destruct (skip_ws s) as [|nextchar rest] eqn:Hs; [exact I|].
  cbn [String.length] in Hw.
  destruct (nextchar =? "]")%char; [cbn [reaches]; lia|].
  pose proof (array_items_reaches (S (String.length s))
                (String nextchar rest) [] ltac:(cbn [String.length]; lia))
    as H.
  destruct (array_items (S (String.length s)) scan_value
              (String nextchar rest) []);
    cbn [reaches String.length] in *; [lia|trivial|trivial].
Qed.

Lemma object_items_reaches (fuel : nat) :
  forall s pairs,
    String.length s < fuel ->
    reaches s (object_items fuel scan_value s pairs).
Proof.
  induction fuel as [|fuel IH]; intros s pairs Hfuel; [lia|].
  cbn [object_items].
  pose proof (scanstring_reaches s) as Hk.
  destruct (scanstring s) as [key after_key| |]; cbn [reaches] in Hk;
    [|exact I|contradiction].
  pose proof (skip_ws_length after_key) as Hw1.
  destruct (skip_ws after_key) as [|colon after_colon]; [exact I|].
  cbn [String.length] in Hw1.
  destruct (colon =? ":")%char; [|exact I].
  pose proof (skip_ws_length after_colon) as Hw2.
  pose proof (scan_value_advances (skip_ws after_colon)) as Hv.
  destruct (scan_value (skip_ws after_colon)) as [v after_value| |];
    cbn [advances] in Hv; [|exact I|contradiction].
  pose proof (skip_ws_length after_value) as Hw3.
  destruct (skip_ws after_value) as [|nextchar rest]; [exact I|].
  cbn [String.length] in Hw3.
  destruct (nextchar =? "}")%char; [cbn [reaches]; lia|].
  destruct (nextchar =? ",")%char; [|exact I].
  pose proof (skip_ws_length rest) as Hw4.
  destruct (skip_ws rest) as [|q after_quote]; [exact I|].
  cbn [String.length] in Hw4.
  destruct (q =? dquote)%char; [|exact I].
  specialize (IH after_quote (pairs ++ [(key, v)])%list ltac:(lia)).
  destruct (object_items fuel scan_value after_quote (pairs ++ [(key, v)]));
    cbn [reaches] in *; [lia|trivial|trivial].
Qed.

Lemma JSONObject_reaches (s : string) : reaches s (JSONObject scan_value s).
Proof.
  unfold JSONObject.
  pose proof (skip_ws_length s) as Hw.
  destruct (skip_ws s) as [|nextchar rest]; [exact I|].
  cbn [String.length] in Hw.
  destruct (nextchar =? "}")%char; [cbn [reaches]; lia|].
  destruct (nextchar =? dquote)%char; [|exact I].
  pose proof (object_items_reaches (S (String.length s)) rest []
                ltac:(lia)) as H.
  destruct (object_items (S (String.length s)) scan_value rest []);
    cbn [reaches] in *; [lia|trivial|trivial].
Qed.

End Loops.

(** Whatever the depth allowed, a scan ends with a value and a shorter
    text, or with an exception. *)
Lemma scan_once_advances (lim : limits) (depth : nat) :
  forall s, advances s (scan_once lim depth s).
Proof.
  induction depth as [|depth IH]; intros s;
    (destruct s as [|nextchar rest]; [exact I|]); cbn [scan_once];
    (destruct (nextchar =? dquote)%char;
     [apply advances_reaches;
      pose proof (scanstring_reaches rest) as H;
      destruct (scanstring rest); exact H|]);
    (destruct (nextchar =? "{")%char;
     [try exact I; try (apply advances_reaches, JSONObject_reaches, IH)|]);
    (destruct (nextchar =? "[")%char;
     [try exact I; try (apply advances_reaches, JSONArray_reaches, IH)|]);
    (destruct (prefix "null" (String nextchar rest));
     [apply drop_advances|]);
    (destruct (prefix "true" (String nextchar rest));
     [apply drop_advances|]);
    (destruct (prefix "false" (String nextchar rest));
     [apply drop_advances|]);
    (destruct (scan_number lim (String nextchar rest)) as [r|] eqn:Hn;
     [exact (scan_number_advances lim _ r Hn)|]);
    (destruct (prefix "NaN" (String nextchar rest));
     [apply drop_advances|]);
    (destruct (prefix "Infinity" (String nextchar rest));
     [apply drop_advances|]);
    (destruct (prefix "-Infinity" (String nextchar rest));
     [apply drop_advances|exact I]).
Qed.

(** So the last branch of [loads] is never taken. *)
Lemma scan_once_never_exhausted (lim : limits) (depth : nat) (s : string) :
  scan_once lim depth s <> Exhausted.
Proof.
  pose proof (scan_once_advances lim depth s) as H.
  destruct (scan_once lim depth s); [discriminate|discriminate|contradiction].
Qed.

(** A [RecursionError] of [loads] is one of the scanner, which entered
    more containers than the limit allows. *)
Lemma loads_RecursionError (lim : limits) (s : string) :
  loads lim s = Raise RecursionError ->
  scan_once lim (recursion_limit lim) (skip_ws s) = Failed RecursionError.
Proof.
  unfold loads. destruct (prefix BOM s); [discriminate|].
  pose proof (scan_once_never_exhausted lim (recursion_limit lim) (skip_ws s))
    as Hne.
  destruct (scan_once lim (recursion_limit lim) (skip_ws s))
    as [obj rest|e|].
  - destruct (skip_ws rest); discriminate.
  - intros H. inversion H. reflexivity.
  - contradiction.
Qed.

End JsonProgress.

(** ** The client accessor *)

Section Accessor.

Variable env : Collaborators.

Lemma get_client_stored (st : process env) (c : OpenAI) :
  _client_instance st = Some c -> get_client env st = (Return c, st).
Proof. intros H. unfold get_client. rewrite H. reflexivity. Qed.

(** What [get_client] leaves in the attribute is what it returned. *)
Lemma get_client_stores (st st1 : process env) (c : OpenAI) :
  get_client env st = (Return c, st1) -> _client_instance st1 = Some c.
Proof.
  unfold get_client, _initialize_client, bind, SecretsHandler_get_openai_key.
  destruct (_client_instance st) as [c0|] eqn:Hi.
  - unfold ret. intros H. inversion H; subst. exact Hi.
  - destruct (get_openai_key env (world st)) as [[key|e] w]; simpl.
    + intros H. inversion H; subst. reflexivity.
    + discriminate.
Qed.

(** [get_client] sends nothing and decodes nothing. *)
Lemma get_client_journals (st : process env) :
  requested (snd (get_client env st)) = requested st
  /\ decoded (snd (get_client env st)) = decoded st.
Proof.
  unfold get_client, _initialize_client, bind, SecretsHandler_get_openai_key.
  destruct (_client_instance st) as [c0|]; [split; reflexivity|].
  destruct (get_openai_key env (world st)) as [[key|e] w]; simpl;
    split; reflexivity.
Qed.

(** Without a stored client, a failure of the secrets provider is the
    failure of [get_client]. *)
Lemma get_client_key_failure (st : process env) (e : exception)
    (st1 : process env) :
  get_client env st = (Raise e, st1) ->
  exists w, get_openai_key env (world st) = (Raise e, w).
Proof.
  unfold get_client, _initialize_client, bind, SecretsHandler_get_openai_key.
  destruct (_client_instance st) as [c0|]; [discriminate|].
  destruct (get_openai_key env (world st)) as [[key|e0] w]; simpl.
  - discriminate.
  - intros H. inversion H; subst. exists w. reflexivity.
Qed.

Lemma singleton_get_client (st : process env) :
  singleton env st -> singleton env (snd (get_client env st)).
Proof.
  unfold singleton, get_client, _initialize_client, bind,
    SecretsHandler_get_openai_key.
  destruct (_client_instance st) as [c0|] eqn:Hi; simpl.
  - rewrite Hi. trivial.
  - intros Hnone.
    destruct (get_openai_key env (world st)) as [[key|e] w]; simpl.
    + rewrite Hnone. reflexivity.
    + exact Hnone.
Qed.

End Accessor.

(** ** What [get_response] does with a reply *)

Section Response.

Variable env : Collaborators.

(** After the reply is in, [get_response] is the rest of its body, run in
    a state that differs from the first one by the client, the world and
    one request. *)
Lemma get_response_body (st : process env) (sanitized_input : string)
    (found : option string) :
  remote_reply env st sanitized_input found ->
  exists client st2,
    fst (get_client env st) = Return client
    /\ requested st2
       = (requested st ++ [(client, request_for env sanitized_input)])%list
    /\ decoded st2 = decoded st
    /\ get_response env sanitized_input st
       = (if negb (truthy found) then raise (ValueError no_response_message)
          else
            bind (try_except (json_loads_ env found)
                             (raise (ValueError not_json_message)))
              (fun content_json =>
                 bind (eval (contains "genres" content_json))
                   (fun has_genres =>
                      if negb has_genres then
                        raise (ValueError (no_genres_message env content_json))
                      else eval (getitem content_json "genres")))) st2.
Proof.
  intros [client st1 response w choice others Hc Hr Hch Hf].
  exists client.
  eexists. split; [rewrite Hc; reflexivity|].
  unfold get_response.
  unfold bind at 1. rewrite Hc.
  unfold bind at 1. unfold chat_completions_create.
  change (completions_create env client _ (world st1))
    with (completions_create env client (request_for env sanitized_input)
            (world st1)).
  rewrite Hr.
  unfold bind at 1. unfold eval at 1. rewrite Hch. cbn [first].
  rewrite Hf.
  split; [|split; [|reflexivity]]; cbn [requested decoded].
  - destruct (get_client_journals env st) as [Hq _].
    rewrite Hc in Hq. cbn [snd] in Hq. rewrite Hq. reflexivity.
  - destruct (get_client_journals env st) as [_ Hd].
    rewrite Hc in Hd. exact Hd.
Qed.

(** A text that decodes is not empty. *)
Lemma decoded_text_not_empty (text : string) (v : value) :
  json_loads env text = Return v -> (text =? "") = false.
Proof.
  intros H. destruct (String.eqb_spec text "") as [->|_]; [|reflexivity].
  rewrite (json_loads_empty env) in H. discriminate H.
Qed.

(** The answer of [get_response] to a reply, as a function of the content
    of the reply alone. *)
Lemma get_response_answer (st : process env) (sanitized_input : string)
    (found : option string) :
  remote_reply env st sanitized_input found ->
  fst (get_response env sanitized_input st)
  = match found with
    | None => Raise (ValueError no_response_message)
    | Some text =>
        if text =? "" then Raise (ValueError no_response_message)
        else
          match json_loads env text with
          | Raise _ => Raise (ValueError not_json_message)
          | Return content_json =>
              match contains "genres" content_json with
              | Raise e => Raise e
              | Return false =>
                  Raise (ValueError (no_genres_message env content_json))
              | Return true => getitem content_json "genres"
              end
          end
    end.
Proof.
  intros H. destruct (get_response_body st sanitized_input found H)
    as (client & st2 & _ & _ & _ & Hbody).
  rewrite Hbody. clear Hbody H.
  destruct found as [text|]; [|reflexivity].
  cbn [truthy]. destruct (text =? "") eqn:He; cbn [negb]; [reflexivity|].
  unfold bind, try_except, json_loads_, eval, raise.
  destruct (json_loads env text) as [content_json|e]; [|reflexivity].
  destruct (contains "genres" content_json) as [[|]|e]; reflexivity.
Qed.

(** The documents handed to [json.loads] while a reply is treated: the
    content when it is true, nothing when it is not. *)
Lemma get_response_decoded (st : process env) (sanitized_input : string)
    (found : option string) :
  remote_reply env st sanitized_input found ->
  decoded (snd (get_response env sanitized_input st))
  = (decoded st ++ (if truthy found then [found] else []))%list.
Proof.
  intros H. destruct (get_response_body st sanitized_input found H)
    as (client & st2 & _ & _ & Hd & Hbody).
  rewrite Hbody. clear Hbody H.
  destruct (truthy found) eqn:Ht; cbn [negb].
  - unfold bind, try_except, json_loads_, eval, raise.
    destruct (match found with
              | Some text => json_loads env text
              | None => Raise TypeError
              end) as [content_json|e]; cbn [snd decoded].
    + destruct (contains "genres" content_json) as [[|]|e];
        cbn [negb snd decoded]; rewrite Hd; reflexivity.
    + rewrite Hd. reflexivity.
  - unfold raise. cbn [snd]. rewrite Hd. symmetry. apply app_nil_r.
Qed.

End Response.

(** ** Dictionaries, substrings and the three messages *)

Lemma dict_contains_get (key : string) (d : list (string * value)) :
  dict_contains key d = true <-> exists v, dict_get key d = Some v.
Proof.
  unfold dict_contains. induction d as [|[k x] rest IH]; simpl.
  - split; [discriminate|intros [v H]; discriminate].
  - destruct (key =? k); simpl.
    + split; [intros _; exists x; reflexivity|reflexivity].
    + exact IH.
Qed.

Lemma string_app_assoc (a b c : string) : (a ++ b) ++ c = a ++ (b ++ c).
Proof. induction a as [|x a IH]; simpl; [reflexivity|now rewrite IH]. Qed.

Lemma prefix_app (n post : string) : prefix n (n ++ post) = true.
Proof.
  induction n as [|c n IH]; simpl; [destruct post; reflexivity|].
  destruct (ascii_dec c c) as [_|Hne]; [exact IH|now elim Hne].
Qed.

Lemma str_contains_prefix (n hay : string) :
  prefix n hay = true -> str_contains n hay = true.
Proof. destruct hay; cbn [str_contains]; intros ->; reflexivity. Qed.

Lemma str_contains_here (n post : string) : str_contains n (n ++ post) = true.
Proof. apply str_contains_prefix, prefix_app. Qed.

(** A text contains what it was assembled from. *)
Lemma str_contains_app (pre n post : string) :
  str_contains n (pre ++ n ++ post) = true.
Proof.
  induction pre as [|c pre IH].
  - change ("" ++ n ++ post) with (n ++ post). apply str_contains_here.
  - change ((String c pre) ++ n ++ post) with (String c (pre ++ n ++ post)).
    cbn [str_contains]. rewrite IH. apply orb_true_r.
Qed.

Section Messages.

Variable env : Collaborators.

Lemma no_response_not_not_json : no_response_message <> not_json_message.
Proof. discriminate. Qed.

Lemma no_genres_not_no_response (content_json : value) :
  no_genres_message env content_json <> no_response_message.
Proof. discriminate. Qed.

Lemma no_genres_not_not_json (content_json : value) :
  no_genres_message env content_json <> not_json_message.
Proof. discriminate. Qed.

(** The message of the missing key holds the text of the parsed value. *)
Lemma no_genres_message_echo (content_json : value) :
  str_contains (format env content_json) (no_genres_message env content_json)
  = true.
Proof.
  unfold no_genres_message.
  rewrite !string_app_assoc.
  rewrite <- (string_app_assoc _ "The parsed JSON ").
  apply str_contains_app.
Qed.

(** Among the three reply errors the exception fixes the kind. *)
Lemma reply_kinds_distinct (st : process env) (e : exception)
    (k1 k2 : error_kind) :
  kind_of env st e k1 -> kind_of env st e k2 ->
  k1 <> ConfigurationError -> k2 <> ConfigurationError -> k1 = k2.
Proof.
  intros H1 H2 N1 N2.
  destruct H1; try (now elim N1);
    inversion H2; subst; try reflexivity; try (now elim N2);
    match goal with
    | H : _ = _ |- _ => try discriminate H
    end.
Qed.

End Messages.

(** ** The mock collaborators do answer *)

Lemma mock_remote_reply (found : option string) (sanitized_input : string) :
  remote_reply (Mock.answering found) (Mock.fresh found) sanitized_input found.
Proof. econstructor; reflexivity. Qed.

(** ** The claims on the replies *)

Section Replies.

Variable env : Collaborators.
Variable st : process env.
Variable sanitized_input : string.

(** C2.  When the content of the reply decodes to the object
    [{"genres": ["pop","rock","jazz","blues","folk"]}], [get_response]
    returns the list [["pop","rock","jazz","blues","folk"]]; and whenever the
    content decodes to an object holding a sequence of strings under
    [genres], [get_response] returns that sequence. *)
Theorem C2_returns_the_genres (text : string) :
  remote_reply env st sanitized_input (Some text) ->
  (json_loads env text
   = Return (PyDict [("genres",
                      PyList [PyStr "pop"; PyStr "rock"; PyStr "jazz";
                              PyStr "blues"; PyStr "folk"])]) ->
   fst (get_response env sanitized_input st)
   = Return (PyList [PyStr "pop"; PyStr "rock"; PyStr "jazz";
                     PyStr "blues"; PyStr "folk"]))
  /\ (forall (d : list (string * value)) (genres : list string),
        json_loads env text = Return (PyDict d) ->
        dict_get "genres" d = Some (PyList (map PyStr genres)) ->
        fst (get_response env sanitized_input st)
        = Return (PyList (map PyStr genres))).
Proof.
  intros Hreply.
  rewrite (get_response_answer env st sanitized_input _ Hreply).
  split.
  - intros Hloads.
    rewrite (decoded_text_not_empty env text _ Hloads), Hloads. reflexivity.
  - intros d genres Hloads Hget.
    rewrite (decoded_text_not_empty env text _ Hloads), Hloads.
    cbn [contains getitem].
    assert (Hin : dict_contains "genres" d = true)
      by (apply dict_contains_get; eauto).
    rewrite Hin, Hget. reflexivity.
Qed.

(** C4.  When the content of the reply is absent or empty, [get_response]
    raises the empty-reply error, and nothing was handed to [json.loads]. *)
Theorem C4_empty_reply_raises_before_decoding (found : option string) :
  remote_reply env st sanitized_input found ->
  found = None \/ found = Some "" ->
  fst (get_response env sanitized_input st)
  = Raise (ValueError no_response_message)
  /\ decoded (snd (get_response env sanitized_input st)) = decoded st.
Proof.
  intros Hreply Hfound.
  rewrite (get_response_answer env st sanitized_input _ Hreply).
  rewrite (get_response_decoded env st sanitized_input _ Hreply).
  destruct Hfound as [-> | ->]; cbn [truthy negb String.eqb];
    (split; [reflexivity|apply app_nil_r]).
Qed.

(** C5.  When the content of the reply is not empty and [json.loads] cannot
    decode it, [get_response] raises the malformed-reply error. *)
Theorem C5_undecodable_reply_raises_malformed (text : string) :
  remote_reply env st sanitized_input (Some text) ->
  text <> "" ->
  json_loads env text = Raise JSONDecodeError ->
  fst (get_response env sanitized_input st)
  = Raise (ValueError not_json_message).
Proof.
  intros Hreply Hne Hloads.
  rewrite (get_response_answer env st sanitized_input _ Hreply).
  apply String.eqb_neq in Hne. rewrite Hne, Hloads. reflexivity.
Qed.

(** C6.  When the content of the reply decodes to an object without the
    key [genres], [get_response] raises the missing-field error, and its
    message contains the text of the parsed object. *)
Theorem C6_missing_genres_raises_with_echo (text : string)
    (d : list (string * value)) :
  remote_reply env st sanitized_input (Some text) ->
  json_loads env text = Return (PyDict d) ->
  dict_contains "genres" d = false ->
  fst (get_response env sanitized_input st)
  = Raise (ValueError (no_genres_message env (PyDict d)))
  /\ str_contains (format env (PyDict d)) (no_genres_message env (PyDict d))
     = true.
Proof.
  intros Hreply Hloads Hout.
  rewrite (get_response_answer env st sanitized_input _ Hreply).
  rewrite (decoded_text_not_empty env text _ Hloads), Hloads.
  cbn [contains]. rewrite Hout.
  split; [reflexivity|apply no_genres_message_echo].
Qed.

(** C8.  When the content of the reply decodes to an object that has the
    key [genres], [get_response] returns the value under that key as it is,
    whatever it is: no length, no uniqueness, no normal form is asked of
    it. *)
Theorem C8_genres_returned_unvalidated (text : string)
    (d : list (string * value)) :
  remote_reply env st sanitized_input (Some text) ->
  json_loads env text = Return (PyDict d) ->
  dict_contains "genres" d = true ->
  exists v : value,
    dict_get "genres" d = Some v
    /\ fst (get_response env sanitized_input st) = Return v.
Proof.
  intros Hreply Hloads Hin.
  destruct (proj1 (dict_contains_get "genres" d) Hin) as [v Hget].
  exists v. split; [exact Hget|].
  rewrite (get_response_answer env st sanitized_input _ Hreply).
  rewrite (decoded_text_not_empty env text _ Hloads), Hloads.
  cbn [contains getitem].
  rewrite Hin, Hget. reflexivity.
Qed.

(** C9.  Whatever exception [json.loads] raises on the content of the
    reply, a decode error or any other, [get_response] raises the
    malformed-reply [ValueError]; nothing of the exception is kept. *)
Theorem C9_bare_except_converts_every_exception (text : string)
    (e : exception) :
  remote_reply env st sanitized_input (Some text) ->
  text <> "" ->
  json_loads env text = Raise e ->
  fst (get_response env sanitized_input st)
  = Raise (ValueError not_json_message).
Proof.
  intros Hreply Hne Hloads.
  rewrite (get_response_answer env st sanitized_input _ Hreply).
  apply String.eqb_neq in Hne. rewrite Hne, Hloads. reflexivity.
Qed.

(** C10.  The emptiness check is a truth test: the content is false exactly
    when it is [None] or the empty string, and the empty-reply error is
    raised for exactly those replies. *)
Theorem C10_empty_string_as_absent (found : option string) :
  remote_reply env st sanitized_input found ->
  (truthy found = false <-> found = None \/ found = Some "")
  /\ (fst (get_response env sanitized_input st)
      = Raise (ValueError no_response_message)
      <-> truthy found = false).
Proof.
  intros Hreply.
  assert (Hfalsy : truthy found = false <-> found = None \/ found = Some "").
  { destruct found as [text|]; cbn [truthy].
    - destruct (String.eqb_spec text "") as [->|Hne]; cbn [negb]; split.
      + intros _. right. reflexivity.
      + reflexivity.
      + discriminate.
      + intros [H|H]; [discriminate|]. inversion H. contradiction.
    - split; [intros _; left; reflexivity|reflexivity]. }
  split; [exact Hfalsy|].
  rewrite (get_response_answer env st sanitized_input _ Hreply).
  destruct found as [text|]; cbn [truthy]; [|split; reflexivity].
  destruct (text =? "") eqn:He; cbn [negb]; [split; reflexivity|].
  split; [|discriminate].
  destruct (json_loads env text) as [content_json|e].
  - destruct content_json as [| b | z | lexeme | s | items | items];
      cbn [contains getitem]; try discriminate.
    + destruct (str_contains "genres" s); discriminate.
    + destruct (existsb (str_eq_value "genres") items); discriminate.
    + destruct (dict_contains "genres" items).
      * destruct (dict_get "genres" items); discriminate.
      * discriminate.
  - discriminate.
Qed.

End Replies.

(** ** The request, the client and the journals *)

Section Frame.

Variable env : Collaborators.

(** Past [get_client], the body of [get_response] leaves the attribute and
    the clients alone and sends one request, the same whatever the reply. *)
Lemma get_response_frame (st : process env) (sanitized_input : string) :
  _client_instance (snd (get_response env sanitized_input st))
  = _client_instance (snd (get_client env st))
  /\ constructed (snd (get_response env sanitized_input st))
     = constructed (snd (get_client env st))
  /\ requested (snd (get_response env sanitized_input st))
     = (requested st ++
        match fst (get_client env st) with
        | Return client => [(client, request_for env sanitized_input)]
        | Raise _ => []
        end)%list.
Proof.
  destruct (get_client_journals env st) as [Hq _].
  destruct (get_response env sanitized_input st) as [r st'] eqn:Hout.
  unfold get_response in Hout. unfold bind at 1 in Hout.
  destruct (get_client env st) as [[client|e] st1]; cbn [fst snd] in *.
  - unfold bind at 1 in Hout. unfold chat_completions_create in Hout.
    change (completions_create env client _ (world st1))
      with (completions_create env client (request_for env sanitized_input)
              (world st1)) in Hout.
    destruct (completions_create env client
                (request_for env sanitized_input) (world st1))
      as [[response|e] w].
    + unfold bind at 1 in Hout. unfold eval at 1 in Hout.
      destruct (first (ChatCompletion.choices response)) as [choice|e].
      * destruct (truthy (ChatCompletion.content
                            (ChatCompletion.message choice)));
          cbn [negb] in Hout.
        -- unfold bind, try_except, json_loads_, eval, raise in Hout.
           destruct (match ChatCompletion.content
                             (ChatCompletion.message choice) with
                     | Some text => json_loads env text
                     | None => Raise TypeError
                     end) as [content_json|e].
           ++ destruct (contains "genres" content_json) as [[|]|e];
                inversion Hout; subst; cbn; rewrite Hq;
                repeat split; reflexivity.
           ++ inversion Hout; subst; cbn; rewrite Hq.
              repeat split; reflexivity.
        -- inversion Hout; subst; cbn; rewrite Hq. repeat split; reflexivity.
      * inversion Hout; subst; cbn; rewrite Hq. repeat split; reflexivity.
    + inversion Hout; subst; cbn; rewrite Hq. repeat split; reflexivity.
  - inversion Hout; subst. rewrite Hq.
    repeat split; symmetry; apply app_nil_r.
Qed.



Lemma singleton_perform (st : process env) (c : call) :
  singleton env st -> singleton env (perform env c st).
Proof.
  intros H. destruct c as [|sanitized_input]; cbn [perform].
  - apply singleton_get_client, H.
  - destruct (get_response_frame st sanitized_input) as (Ha & Hb & _).
    pose proof (singleton_get_client env st H) as H1.
    unfold singleton in *. rewrite Ha, Hb. exact H1.
Qed.


(** C3.  The requests [get_response] sends: none when it cannot obtain its
    client, and otherwise exactly one, with the model ["gpt-3.5-turbo"], the
    seed 69, the response format [{"type": "json_object"}] and two
    messages, the system message with the prompt, which does not depend on
    the input, and the user message with the input. *)
Theorem C3_one_request_with_fixed_fields (st : process env)
    (sanitized_input : string) :
  requested (snd (get_response env sanitized_input st))
  = (requested st ++
     match fst (get_client env st) with
     | Return client =>
         [(client,
           {| Params.model := "gpt-3.5-turbo";
              Params.response_format := {| Params.type := "json_object" |};
              Params.seed := 69;
              Params.messages :=
                [ {| Params.role := "system";
                     Params.content := get_gpt_prompt env |};
                  {| Params.role := "user";
                     Params.content := sanitized_input |} ] |})]
     | Raise _ => []
     end)%list.
Proof. exact (proj2 (proj2 (get_response_frame st sanitized_input))). Qed.


(** C1, as amended.  When [get_response] cannot obtain its client, or when
    the remote call returns a reply with a first choice whose content is
    absent, empty, not decodable, or decodes to a JSON object, the outcome
    is either the value stored under [genres] in that object, returned as
    it is, of whatever type, or an exception of one of the four kinds, each
    on its own trigger: what the secrets provider raised when the client
    cannot be obtained, the no-response [ValueError] when the content is
    absent or empty, the not-JSON [ValueError] when [json.loads] raised,
    the missing-key [ValueError] showing the object when the object has no
    [genres]; and among the three reply errors the exception fixes the
    kind. *)
Theorem C1_outcome_is_a_value_or_a_labelled_error (st : process env)
    (sanitized_input : string) :
  (exists e st1, get_client env st = (Raise e, st1))
  \/ (exists found,
        remote_reply env st sanitized_input found
        /\ object_if_decoded env found) ->
  labelled_outcome env st sanitized_input
    (fst (get_response env sanitized_input st))
  /\ (forall e k1 k2,
        kind_of env st e k1 -> kind_of env st e k2 ->
        k1 <> ConfigurationError -> k2 <> ConfigurationError -> k1 = k2).
Proof.
  intros H. split; [|intros e k1 k2; apply reply_kinds_distinct].
  unfold labelled_outcome.
  destruct H as [(e & st1 & Hc) | (found & Hreply & Hobject)].
  - right. exists e, ConfigurationError. split; [|split].
    + unfold get_response. unfold bind at 1. rewrite Hc. reflexivity.
    + destruct (get_client_key_failure env st e st1 Hc) as [w Hw].
      exact (kind_configuration env st e w Hw).
    + exact (error_configuration env st sanitized_input e st1 Hc).
  - rewrite (get_response_answer env st sanitized_input _ Hreply).
    destruct found as [text|].
    + destruct (String.eqb_spec text "") as [Hempty|Hne].
      * right. exists (ValueError no_response_message), EmptyReplyError.
        split; [reflexivity|split; [apply kind_empty|]].
        apply (error_empty env st sanitized_input (Some text) Hreply).
        right. rewrite Hempty. reflexivity.
      * destruct (json_loads env text) as [content_json|e] eqn:Hloads.
        -- destruct (Hobject text content_json eq_refl Hloads) as [d Hd].
           subst content_json. cbn [contains getitem].
           destruct (dict_contains "genres" d) eqn:Hin.
           ++ destruct (proj1 (dict_contains_get "genres" d) Hin)
                as [v Hget].
              rewrite Hget. left. exists text, d, v.
              split; [exact Hreply|].
              split; [exact Hloads|]. split; [exact Hget|reflexivity].
           ++ right.
              exists (ValueError (no_genres_message env (PyDict d))),
                MissingFieldError.
              split; [reflexivity|split; [apply kind_missing|]].
              exact (error_missing env st sanitized_input text d
                       Hreply Hloads Hin).
        -- right. exists (ValueError not_json_message), MalformedReplyError.
           split; [reflexivity|split; [apply kind_malformed|]].
           exact (error_malformed env st sanitized_input text e
                    Hreply Hne Hloads).
    + right. exists (ValueError no_response_message), EmptyReplyError.
      split; [reflexivity|split; [apply kind_empty|]].
      apply (error_empty env st sanitized_input None Hreply).
      left. reflexivity.
Qed.

End Frame.

(** ** The adapter on actual replies *)

(** C1 as it is written fails, in four ways.  A reply [{"genres": 5}] makes
    [get_response] return the integer 5, which is neither a sequence of
    strings nor an error.  A reply [5] makes it raise [TypeError], an
    exception of none of the four kinds; so does a failure of the remote
    call, whose exception leaves as it is, and a reply without choices,
    which raises [IndexError]. *)
Lemma C1_counterexample_genres_not_a_sequence :
  (fst (Mock.call (Some (Mock.json_text "{'genres': 5}")) "sad")
   = Return (PyInt 5)
   /\ ~ documented_outcome
          (Mock.answering (Some (Mock.json_text "{'genres': 5}")))
          (Mock.fresh (Some (Mock.json_text "{'genres': 5}")))
          (fst (Mock.call (Some (Mock.json_text "{'genres': 5}")) "sad")))
  /\ (fst (Mock.call (Some "5") "sad") = Raise TypeError
      /\ ~ documented_outcome
             (Mock.answering (Some "5")) (Mock.fresh (Some "5"))
             (fst (Mock.call (Some "5") "sad")))
  /\ (fst (get_response mock_rate_limited "sad" (start mock_rate_limited tt))
      = Raise (Foreign "RateLimitError" "429")
      /\ ~ documented_outcome mock_rate_limited (start mock_rate_limited tt)
             (fst (get_response mock_rate_limited "sad"
                     (start mock_rate_limited tt))))
  /\ (fst (get_response mock_no_choice "sad" (start mock_no_choice tt))
      = Raise IndexError
      /\ ~ documented_outcome mock_no_choice (start mock_no_choice tt)
             (fst (get_response mock_no_choice "sad"
                     (start mock_no_choice tt)))).
Proof.
  assert (H1 : fst (Mock.call (Some (Mock.json_text "{'genres': 5}")) "sad")
               = Return (PyInt 5))
    by (vm_compute; reflexivity).
  assert (H2 : fst (Mock.call (Some "5") "sad") = Raise TypeError)
    by (vm_compute; reflexivity).
  assert (H3 : fst (get_response mock_rate_limited "sad"
                      (start mock_rate_limited tt))
               = Raise (Foreign "RateLimitError" "429"))
    by (vm_compute; reflexivity).
  assert (H4 : fst (get_response mock_no_choice "sad"
                      (start mock_no_choice tt))
               = Raise IndexError)
    by (vm_compute; reflexivity).
  split; [|split; [|split]].
  - split; [exact H1|].
    rewrite H1. intros [[genres Hg] | (e & k & He & _)].
    + destruct genres; discriminate Hg.
    + discriminate He.
  - split; [exact H2|].
    rewrite H2. intros [[genres Hg] | (e & k & He & Hk)];
      [discriminate Hg|].
    inversion He; subst e. inversion Hk; subst.
    match goal with H : get_openai_key _ _ = _ |- _ => discriminate H end.
  - split; [exact H3|].
    rewrite H3. intros [[genres Hg] | (e & k & He & Hk)];
      [discriminate Hg|].
    inversion He; subst e. inversion Hk; subst.
    match goal with H : get_openai_key _ _ = _ |- _ => discriminate H end.
  - split; [exact H4|].
    rewrite H4. intros [[genres Hg] | (e & k & He & Hk)];
      [discriminate Hg|].
    inversion He; subst e. inversion Hk; subst.
    match goal with H : get_openai_key _ _ = _ |- _ => discriminate H end.
Qed.

(** A reply that is JSON but not an object leaves [get_response] with a
    [TypeError]: a number is no container, and a list or a string that
    holds ["genres"] passes the test and cannot be indexed by it. *)
Lemma reply_not_an_object_raises_TypeError :
  fst (Mock.call (Some "5") "sad") = Raise TypeError
  /\ fst (Mock.call (Some (Mock.json_text "['genres']")) "sad")
     = Raise TypeError
  /\ fst (Mock.call (Some (Mock.json_text "'my genres'")) "sad")
     = Raise TypeError.
Proof. repeat split; vm_compute; reflexivity. Qed.

(** An exception of the remote call, and a reply without choices, leave
    [get_response] as they are. *)
Lemma remote_failure_propagates :
  fst (get_response
         (Mock.collaborators (Return "sk-test")
            (Raise (Foreign "APIConnectionError" "Connection error.")))
         "sad"
         (start (Mock.collaborators (Return "sk-test")
                   (Raise (Foreign "APIConnectionError" "Connection error.")))
            tt))
  = Raise (Foreign "APIConnectionError" "Connection error.")
  /\ fst (get_response
            (Mock.collaborators (Return "sk-test")
               (Return {| ChatCompletion.choices := [] |}))
            "sad"
            (start (Mock.collaborators (Return "sk-test")
                      (Return {| ChatCompletion.choices := [] |}))
               tt))
     = Raise IndexError.
Proof. split; vm_compute; reflexivity. Qed.

Lemma C1_witness :
  labelled_outcome
    (Mock.answering (Some (Mock.json_text "{'mood':'happy'}")))
    (Mock.fresh (Some (Mock.json_text "{'mood':'happy'}")))
    "sad"
    (fst (Mock.call (Some (Mock.json_text "{'mood':'happy'}")) "sad")).
Proof.
  apply (C1_outcome_is_a_value_or_a_labelled_error
           (Mock.answering (Some (Mock.json_text "{'mood':'happy'}")))
           (Mock.fresh (Some (Mock.json_text "{'mood':'happy'}"))) "sad").
  right. exists (Some (Mock.json_text "{'mood':'happy'}")).
  split; [apply mock_remote_reply|].
  intros text v Htext Hloads. inversion Htext; subst text.
  vm_compute in Hloads. inversion Hloads. eexists. reflexivity.
Defined.

Lemma C2_witness :
  fst (Mock.call
         (Some (Mock.json_text
                  "{'genres': ['pop','rock','jazz','blues','folk']}"))
         "sad")
  = Return (PyList [PyStr "pop"; PyStr "rock"; PyStr "jazz"; PyStr "blues";
                    PyStr "folk"]).
Proof.
  apply (C2_returns_the_genres
           (Mock.answering
              (Some (Mock.json_text
                       "{'genres': ['pop','rock','jazz','blues','folk']}")))
           (Mock.fresh _) "sad"
           (Mock.json_text "{'genres': ['pop','rock','jazz','blues','folk']}")).
  - apply mock_remote_reply.
  - vm_compute. reflexivity.
Defined.

Lemma C4_witness :
  (fst (Mock.call None "sad") = Raise (ValueError no_response_message)
   /\ decoded (snd (Mock.call None "sad")) = [])
  /\ (fst (Mock.call (Some "") "sad") = Raise (ValueError no_response_message)
      /\ decoded (snd (Mock.call (Some "") "sad")) = []).
Proof.
  split.
  - apply (C4_empty_reply_raises_before_decoding
             (Mock.answering None) (Mock.fresh None) "sad" None).
    + apply mock_remote_reply.
    + left. reflexivity.
  - apply (C4_empty_reply_raises_before_decoding
             (Mock.answering (Some "")) (Mock.fresh (Some "")) "sad"
             (Some "")).
    + apply mock_remote_reply.
    + right. reflexivity.
Defined.

Lemma C5_witness :
  fst (Mock.call (Some "not json") "sad")
  = Raise (ValueError not_json_message).
Proof.
  apply (C5_undecodable_reply_raises_malformed
           (Mock.answering (Some "not json")) (Mock.fresh _) "sad"
           "not json").
  - apply mock_remote_reply.
  - discriminate.
  - vm_compute. reflexivity.
Defined.

Lemma C6_witness :
  fst (Mock.call (Some (Mock.json_text "{'mood':'happy'}")) "sad")
  = Raise (ValueError
             ("Something went wrong retrieving a response from GPT. "
              ++ "The parsed JSON {'mood': 'happy'} "
              ++ "does not contain the `genres` key."))
  /\ str_contains "{'mood': 'happy'}"
       ("Something went wrong retrieving a response from GPT. "
        ++ "The parsed JSON {'mood': 'happy'} "
        ++ "does not contain the `genres` key.")
     = true.
Proof.
  apply (C6_missing_genres_raises_with_echo
           (Mock.answering (Some (Mock.json_text "{'mood':'happy'}")))
           (Mock.fresh _) "sad" (Mock.json_text "{'mood':'happy'}")
           [("mood", PyStr "happy")]).
  - apply mock_remote_reply.
  - vm_compute. reflexivity.
  - reflexivity.
Defined.


Lemma C8_witness :
  (exists v,
      dict_get "genres"
        [("genres", PyList [PyStr "Pop"; PyStr "pop"; PyStr " pop "])]
      = Some v
      /\ fst (Mock.call
                (Some (Mock.json_text "{'genres': ['Pop', 'pop', ' pop ']}"))
                "sad")
         = Return v)
  /\ (exists v,
         dict_get "genres" [("genres", PyInt 5)] = Some v
         /\ fst (Mock.call (Some (Mock.json_text "{'genres': 5}")) "sad")
            = Return v).
Proof.
  split.
  - apply (C8_genres_returned_unvalidated
             (Mock.answering
                (Some (Mock.json_text "{'genres': ['Pop', 'pop', ' pop ']}")))
             (Mock.fresh _) "sad"
             (Mock.json_text "{'genres': ['Pop', 'pop', ' pop ']}")).
    + apply mock_remote_reply.
    + vm_compute. reflexivity.
    + reflexivity.
  - apply (C8_genres_returned_unvalidated
             (Mock.answering (Some (Mock.json_text "{'genres': 5}")))
             (Mock.fresh _) "sad" (Mock.json_text "{'genres': 5}")).
    + apply mock_remote_reply.
    + vm_compute. reflexivity.
    + reflexivity.
Defined.

(** A thousand brackets exceed the recursion limit: [json.loads] raises
    [RecursionError], not a decode error. *)
Lemma loads_deep_nesting :
  Json.loads Json.default_limits (Mock.times 1000 "[") = Raise RecursionError.
Proof. vm_compute. reflexivity. Qed.

Lemma C9_witness :
  fst (Mock.call (Some (Mock.times 1000 "[")) "sad")
  = Raise (ValueError not_json_message).
Proof.
  apply (C9_bare_except_converts_every_exception
           (Mock.answering (Some (Mock.times 1000 "["))) (Mock.fresh _) "sad"
           (Mock.times 1000 "[") RecursionError).
  - apply mock_remote_reply.
  - discriminate.
  - exact loads_deep_nesting.
Defined.

Lemma C10_witness :
  fst (Mock.call (Some "") "sad") = Raise (ValueError no_response_message).
Proof.
  apply (proj2 (C10_empty_string_as_absent
                  (Mock.answering (Some "")) (Mock.fresh _) "sad" (Some "")
                  (mock_remote_reply _ _))).
  reflexivity.
Defined.

(** * Further properties of the class *)

(** ** Obtaining the client *)

Section Obtaining.

Variable env : Collaborators.

(** X1.  Without a stored client, when the secrets provider answers a key,
    [get_client] builds one client with exactly that key, stores it and
    returns it; it sends nothing and decodes nothing. *)
Theorem X1_first_get_client_builds_with_the_key (st : process env)
    (key : string) (w : World env) :
  _client_instance st = None ->
  get_openai_key env (world st) = (Return key, w) ->
  exists client st1,
    get_client env st = (Return client, st1)
    /\ api_key client = key
    /\ _client_instance st1 = Some client
    /\ constructed st1 = (constructed st ++ [client])%list
    /\ world st1 = w
    /\ requested st1 = requested st
    /\ decoded st1 = decoded st.
Proof.
  intros Hnone Hkey.
  unfold get_client, _initialize_client, bind, SecretsHandler_get_openai_key.
  rewrite Hnone, Hkey. cbn.
  eexists. eexists. repeat split.
Qed.

(** X2.  Without a stored client, when the secrets provider raises,
    [get_client] and [get_response] raise that very exception and leave the
    process as it was, but for what the provider did to the world: no
    client is stored or built, no request is sent, nothing is decoded, so
    that the next call asks the provider again. *)
Theorem X2_key_failure_leaves_no_trace (st : process env)
    (sanitized_input : string) (e : exception) (w : World env) :
  _client_instance st = None ->
  get_openai_key env (world st) = (Raise e, w) ->
  get_client env st
  = (Raise e,
     {| _client_instance := None;
        world := w;
        constructed := constructed st;
        requested := requested st;
        decoded := decoded st |})
  /\ get_response env sanitized_input st
     = (Raise e,
        {| _client_instance := None;
           world := w;
           constructed := constructed st;
           requested := requested st;
           decoded := decoded st |}).
Proof.
  intros Hnone Hkey.
  assert (Hc : get_client env st
               = (Raise e,
                  {| _client_instance := None;
                     world := w;
                     constructed := constructed st;
                     requested := requested st;
                     decoded := decoded st |})).
  { unfold get_client, _initialize_client, bind,
      SecretsHandler_get_openai_key.
    rewrite Hnone, Hkey. reflexivity. }
  split; [exact Hc|].
  unfold get_response. unfold bind at 1. rewrite Hc. reflexivity.
Qed.

End Obtaining.

(** ** When the remote call gives no usable reply *)

Section NoReply.

Variable env : Collaborators.
Variable st : process env.
Variable sanitized_input : string.

(** The state in which [get_response] goes on after the remote call. *)
Lemma get_response_after_call (client : OpenAI) (st1 : process env)
    (r : result ChatCompletion.t) (w : World env) :
  get_client env st = (Return client, st1) ->
  completions_create env client (request_for env sanitized_input) (world st1)
  = (r, w) ->
  exists st2,
    _client_instance st2 = Some client
    /\ requested st2
       = (requested st ++ [(client, request_for env sanitized_input)])%list
    /\ decoded st2 = decoded st
    /\ get_response env sanitized_input st
       = match r with
         | Raise e => (Raise e, st2)
         | Return response =>
             match ChatCompletion.choices response with
             | [] => (Raise IndexError, st2)
             | _ :: _ => get_response env sanitized_input st
             end
         end.
Proof.
  intros Hc Hr.
  destruct (get_client_journals env st) as [Hq Hd].
  rewrite Hc in Hq, Hd. cbn [snd] in Hq, Hd.
  pose proof (get_client_stores env st st1 client Hc) as Hi.
  eexists. split; [|split; [|split]].
  4: { unfold get_response at 1. unfold bind at 1. rewrite Hc.
       unfold bind at 1. unfold chat_completions_create.
       change (completions_create env client _ (world st1))
         with (completions_create env client
                 (request_for env sanitized_input) (world st1)).
       rewrite Hr.
       destruct r as [response|e]; [|reflexivity].
       unfold bind at 1. unfold eval at 1.
       destruct (ChatCompletion.choices response) as [|choice others] eqn:Hch;
         cbn [first]; [reflexivity|].
       unfold get_response. unfold bind at 3. rewrite Hc.
       unfold bind at 3. unfold chat_completions_create.
       change (completions_create env client _ (world st1))
         with (completions_create env client
                 (request_for env sanitized_input) (world st1)).
       rewrite Hr. unfold bind at 3. unfold eval at 3. rewrite Hch.
       reflexivity. }
  - cbn [_client_instance]. exact Hi.
  - cbn [requested]. rewrite Hq. reflexivity.
  - cbn [decoded]. exact Hd.
Qed.

(** X3.  When the remote call raises, [get_response] raises that very
    exception; the request is on the journal, nothing was decoded, and the
    client stays stored for the next call. *)
Theorem X3_remote_failure_propagates (client : OpenAI) (st1 : process env)
    (e : exception) (w : World env) :
  get_client env st = (Return client, st1) ->
  completions_create env client (request_for env sanitized_input) (world st1)
  = (Raise e, w) ->
  fst (get_response env sanitized_input st) = Raise e
  /\ requested (snd (get_response env sanitized_input st))
     = (requested st ++ [(client, request_for env sanitized_input)])%list
  /\ decoded (snd (get_response env sanitized_input st)) = decoded st
  /\ _client_instance (snd (get_response env sanitized_input st))
     = Some client.
Proof.
  intros Hc Hr.
  destruct (get_response_after_call client st1 _ w Hc Hr)
    as (st2 & Hi & Hq & Hd & Hout).
  rewrite Hout. cbn [fst snd]. repeat split; assumption.
Qed.

(** X4.  When the reply has no choice at all, [get_response] raises
    [IndexError], without decoding anything. *)
Theorem X4_reply_without_choices_raises_IndexError (client : OpenAI)
    (st1 : process env) (response : ChatCompletion.t) (w : World env) :
  get_client env st = (Return client, st1) ->
  completions_create env client (request_for env sanitized_input) (world st1)
  = (Return response, w) ->
  ChatCompletion.choices response = [] ->
  fst (get_response env sanitized_input st) = Raise IndexError
  /\ decoded (snd (get_response env sanitized_input st)) = decoded st.
Proof.
  intros Hc Hr Hch.
  destruct (get_response_after_call client st1 _ w Hc Hr)
    as (st2 & Hi & Hq & Hd & Hout).
  rewrite Hch in Hout. rewrite Hout. cbn [fst snd]. split; [reflexivity|exact Hd].
Qed.

End NoReply.

(** ** Replies that decode to something else than an object *)

Lemma existsb_str_eq_value (key : string) (l : list value) :
  existsb (str_eq_value key) l = true <-> In (PyStr key) l.
Proof.
  rewrite existsb_exists. split.
  - intros (x & Hin & Heq). destruct x; try discriminate Heq.
    cbn [str_eq_value] in Heq. apply String.eqb_eq in Heq. now subst.
  - intros Hin. exists (PyStr key). split; [exact Hin|].
    cbn [str_eq_value]. apply String.eqb_refl.
Qed.

Section OtherJson.

Variable env : Collaborators.
Variable st : process env.
Variable sanitized_input : string.

(** X5.  When the content of the reply decodes to [null], a boolean or a
    number, the membership test itself fails: [get_response] raises
    [TypeError], not one of its [ValueError]s. *)
Theorem X5_scalar_reply_raises_TypeError (text : string)
    (content_json : value) :
  remote_reply env st sanitized_input (Some text) ->
  json_loads env text = Return content_json ->
  (content_json = PyNone
   \/ (exists b, content_json = PyBool b)
   \/ (exists z, content_json = PyInt z)
   \/ (exists lexeme, content_json = PyFloat lexeme)) ->
  fst (get_response env sanitized_input st) = Raise TypeError.
Proof.
  intros Hreply Hloads Hscalar.
  rewrite (get_response_answer env st sanitized_input _ Hreply).
  rewrite (decoded_text_not_empty env text _ Hloads), Hloads.
  destruct Hscalar as [-> | [[b ->] | [[z ->] | [lexeme ->]]]]; reflexivity.
Qed.

(** X6.  When the content decodes to a list, the test ["genres" in ...]
    looks for an element equal to ["genres"]: with such an element the test
    passes and the subscript raises [TypeError]; without one the
    missing-key [ValueError] is raised, showing the list.  When it decodes
    to a string, the test is a substring test, with the same two
    outcomes. *)
Theorem X6_list_or_string_reply (text : string) :
  remote_reply env st sanitized_input (Some text) ->
  (forall l : list value,
      json_loads env text = Return (PyList l) ->
      (In (PyStr "genres") l ->
       fst (get_response env sanitized_input st) = Raise TypeError)
      /\ (~ In (PyStr "genres") l ->
          fst (get_response env sanitized_input st)
          = Raise (ValueError (no_genres_message env (PyList l)))))
  /\ (forall s : string,
        json_loads env text = Return (PyStr s) ->
        fst (get_response env sanitized_input st)
        = if str_contains "genres" s then Raise TypeError
          else Raise (ValueError (no_genres_message env (PyStr s)))).
Proof.
  intros Hreply.
  rewrite (get_response_answer env st sanitized_input _ Hreply).
  split.
  - intros l Hloads.
    rewrite (decoded_text_not_empty env text _ Hloads), Hloads.
    cbn [contains getitem].
    destruct (existsb (str_eq_value "genres") l) eqn:Hex; split.
    + reflexivity.
    + intros Hnot. apply existsb_str_eq_value in Hex. contradiction.
    + intros Hin. apply existsb_str_eq_value in Hin. congruence.
    + reflexivity.
  - intros s Hloads.
    rewrite (decoded_text_not_empty env text _ Hloads), Hloads.
    cbn [contains getitem].
    destruct (str_contains "genres" s); reflexivity.
Qed.

(** X7.  Once a reply with a first choice is in, [get_response] returns a
    value or raises one of its three [ValueError]s or [TypeError], and
    nothing else; in particular the subscript never raises [KeyError],
    the membership test guards it. *)
Theorem X7_exceptions_after_a_reply (found : option string) :
  remote_reply env st sanitized_input found ->
  ((exists v, fst (get_response env sanitized_input st) = Return v)
   \/ fst (get_response env sanitized_input st)
      = Raise (ValueError no_response_message)
   \/ fst (get_response env sanitized_input st)
      = Raise (ValueError not_json_message)
   \/ (exists content_json,
         fst (get_response env sanitized_input st)
         = Raise (ValueError (no_genres_message env content_json)))
   \/ fst (get_response env sanitized_input st) = Raise TypeError)
  /\ (forall key,
        fst (get_response env sanitized_input st) <> Raise (KeyError key)).
Proof.
  intros Hreply.
  rewrite (get_response_answer env st sanitized_input _ Hreply).
  destruct found as [text|]; [|split; [tauto|discriminate]].
  destruct (text =? ""); [split; [tauto|discriminate]|].
  destruct (json_loads env text) as [content_json|e];
    [|split; [tauto|discriminate]].
  destruct content_json as [| b | z | lexeme | s | items | items];
    cbn [contains getitem]; try (split; [tauto|discriminate]).
  - destruct (str_contains "genres" s); (split; [|discriminate]);
      [tauto|right; right; right; left; eexists; reflexivity].
  - destruct (existsb (str_eq_value "genres") items);
      (split; [|discriminate]);
      [tauto|right; right; right; left; eexists; reflexivity].
  - destruct (dict_contains "genres" items) eqn:Hin.
    + destruct (proj1 (dict_contains_get "genres" items) Hin) as [v Hget].
      rewrite Hget. split; [left; exists v; reflexivity|discriminate].
    + split; [right; right; right; left; eexists; reflexivity|discriminate].
Qed.

(** X8.  Whatever [get_response] returns was found under the key [genres]
    of an object the content of the reply decoded to: a value is never
    returned for an empty, undecodable or non-object reply. *)
Theorem X8_returned_value_comes_from_an_object (found : option string)
    (v : value) :
  remote_reply env st sanitized_input found ->
  fst (get_response env sanitized_input st) = Return v ->
  exists text d,
    found = Some text
    /\ text <> ""
    /\ json_loads env text = Return (PyDict d)
    /\ dict_get "genres" d = Some v.
Proof.
  intros Hreply.
  rewrite (get_response_answer env st sanitized_input _ Hreply).
  destruct found as [text|]; [|discriminate].
  destruct (String.eqb_spec text "") as [_|Hne]; [discriminate|].
  destruct (json_loads env text) as [content_json|e] eqn:Hloads;
    [|discriminate].
  destruct content_json as [| b | z | lexeme | s | items | items];
    cbn [contains getitem]; try discriminate.
  - destruct (str_contains "genres" s); discriminate.
  - destruct (existsb (str_eq_value "genres") items); discriminate.
  - destruct (dict_contains "genres" items); [|discriminate].
    destruct (dict_get "genres" items) as [v0|] eqn:Hget; [|discriminate].
    intros H. inversion H; subst v0.
    exists text, items.
    split; [reflexivity|split; [exact Hne|split; [exact Hloads|exact Hget]]].
Qed.

(** X9.  Each message names its cause: the not-JSON error is raised exactly
    when [json.loads] raised on a content that is not empty, and a
    missing-key error exactly when the content decoded to a value in which
    the membership test found no ["genres"]. *)
Theorem X9_messages_name_their_cause (found : option string) :
  remote_reply env st sanitized_input found ->
  (fst (get_response env sanitized_input st)
   = Raise (ValueError not_json_message)
   <-> exists text e,
         found = Some text /\ text <> "" /\ json_loads env text = Raise e)
  /\ ((exists shown,
          fst (get_response env sanitized_input st)
          = Raise (ValueError (no_genres_message env shown)))
      <-> exists text content_json,
            found = Some text
            /\ json_loads env text = Return content_json
            /\ contains "genres" content_json = Return false).
Proof.
  intros Hreply.
  rewrite (get_response_answer env st sanitized_input _ Hreply).
  pose proof (no_genres_not_no_response env) as N1.
  pose proof (no_genres_not_not_json env) as N2.
  split; split.
  - destruct found as [text|]; [|discriminate].
    destruct (String.eqb_spec text "") as [_|Hne]; [discriminate|].
    destruct (json_loads env text) as [content_json|e] eqn:Hloads.
    + destruct (contains "genres" content_json) as [[|]|e'] eqn:Hc.
      * destruct content_json; cbn [getitem]; try discriminate.
        destruct (dict_get "genres" items); discriminate.
      * intros H. exfalso. apply (N2 content_json). congruence.
      * destruct content_json; cbn [contains] in Hc; try discriminate Hc;
          inversion Hc; subst; discriminate.
    + intros _. exists text, e. repeat split; assumption.
  - intros (text & e & -> & Hne & Hloads).
    apply String.eqb_neq in Hne. rewrite Hne, Hloads. reflexivity.
  - intros [shown H].
    destruct found as [text|];
      [|exfalso; apply (N1 shown); congruence].
    destruct (text =? "");
      [exfalso; apply (N1 shown); congruence|].
    destruct (json_loads env text) as [content_json|e] eqn:Hloads;
      [|exfalso; apply (N2 shown); congruence].
    destruct (contains "genres" content_json) as [[|]|e'] eqn:Hc.
    + destruct content_json; cbn [getitem] in H; try discriminate H.
      destruct (dict_get "genres" items); discriminate H.
    + exists text, content_json. repeat split; assumption.
    + destruct content_json; cbn [contains] in Hc; try discriminate Hc;
        inversion Hc; subst; discriminate H.
  - intros (text & content_json & -> & Hloads & Hc).
    rewrite (decoded_text_not_empty env text _ Hloads), Hloads, Hc.
    exists content_json. reflexivity.
Qed.

(** X10.  A content that is not empty is handed to [json.loads] exactly
    once, as it came, whatever the outcome of the call. *)
Theorem X10_content_decoded_once (text : string) :
  remote_reply env st sanitized_input (Some text) ->
  text <> "" ->
  decoded (snd (get_response env sanitized_input st))
  = (decoded st ++ [Some text])%list.
Proof.
  intros Hreply Hne.
  rewrite (get_response_decoded env st sanitized_input _ Hreply).
  cbn [truthy]. apply String.eqb_neq in Hne. rewrite Hne. reflexivity.
Qed.

End OtherJson.

(** X12.  Only the content of the first choice counts: two calls whose
    replies have the same first content get the same answer, whatever the
    inputs, the processes and the other choices are. *)
Theorem X12_only_the_first_choice_counts (env : Collaborators)
    (st st' : process env) (sanitized_input sanitized_input' : string)
    (found : option string) :
  remote_reply env st sanitized_input found ->
  remote_reply env st' sanitized_input' found ->
  fst (get_response env sanitized_input st)
  = fst (get_response env sanitized_input' st').
Proof.
  intros H H'.
  rewrite (get_response_answer env st sanitized_input _ H).
  rewrite (get_response_answer env st' sanitized_input' _ H').
  reflexivity.
Qed.

(** ** The client over runs of calls *)

Section Runs.

Variable env : Collaborators.

(** X11.  [get_response] initialises the client on the way: whenever it
    obtains its client, that client is stored when the call is over,
    whatever the outcome of the call, and [get_client] then returns it
    without touching the process. *)
Theorem X11_get_response_stores_its_client (st st1 : process env)
    (sanitized_input : string) (client : OpenAI) :
  get_client env st = (Return client, st1) ->
  _client_instance (snd (get_response env sanitized_input st)) = Some client
  /\ get_client env (snd (get_response env sanitized_input st))
     = (Return client, snd (get_response env sanitized_input st)).
Proof.
  intros Hc.
  assert (Hi : _client_instance (snd (get_response env sanitized_input st))
               = Some client).
  { destruct (get_response_frame env st sanitized_input) as (Ha & _).
    rewrite Ha, Hc. exact (get_client_stores env st st1 client Hc). }
  split; [exact Hi|apply get_client_stored, Hi].
Qed.

Lemma inputs_of_app (calls more : list call) :
  inputs_of (calls ++ more) = (inputs_of calls ++ inputs_of more)%list.
Proof.
  induction calls as [|[|sanitized_input] calls IH]; cbn [inputs_of app].
  - reflexivity.
  - exact IH.
  - rewrite IH. reflexivity.
Qed.

Lemma singleton_stored (st : process env) (client : OpenAI) :
  singleton env st -> constructed st = [client] ->
  _client_instance st = Some client.
Proof.
  unfold singleton. destruct (_client_instance st) as [c|]; intros H Hb.
  - rewrite H in Hb. inversion Hb. reflexivity.
  - rewrite H in Hb. discriminate Hb.
Qed.

Lemma requests_accounted_perform (st : process env) (inputs : list string)
    (c : call) :
  requests_accounted env st inputs ->
  requests_accounted env (perform env c st) (inputs ++ inputs_of [c]).
Proof.
  intros (Hs & Hall & Hlen).
  split; [apply singleton_perform, Hs|].
  destruct c as [|sanitized_input]; cbn [perform inputs_of].
  - destruct (get_client_journals env st) as [Hq _]. rewrite Hq.
    rewrite app_nil_r. split; [|exact Hlen].
    intros client params Hin.
    destruct (Hall client params Hin) as [Hb Hex].
    rewrite (get_client_stored env st client (singleton_stored st client Hs Hb)).
    split; assumption.
  - destruct (get_response_frame env st sanitized_input) as (_ & Hb' & Hq').
    rewrite Hq', Hb'. split.
    + intros client params Hin. apply in_app_or in Hin.
      destruct Hin as [Hin|Hin].
      * destruct (Hall client params Hin) as [Hb (i & Hi & Hp)].
        rewrite (get_client_stored env st client
                   (singleton_stored st client Hs Hb)).
        split; [exact Hb|].
        exists i. split; [apply in_or_app; left; exact Hi|exact Hp].
      * destruct (get_client env st) as [[client0|e] st1] eqn:Hc;
          cbn [fst snd] in *; [|contradiction].
        destruct Hin as [Hin|[]]. inversion Hin; subst client0 params.
        pose proof (get_client_stores env st st1 client Hc) as Hi.
        pose proof (singleton_get_client env st Hs) as Hs1.
        rewrite Hc in Hs1. cbn [snd] in Hs1.
        unfold singleton in Hs1. rewrite Hi in Hs1.
        split; [exact Hs1|].
        exists sanitized_input.
        split; [apply in_or_app; right; left; reflexivity|reflexivity].
    + rewrite !length_app. cbn [length].
      destruct (fst (get_client env st)); cbn [length]; lia.
Qed.

Lemma requests_accounted_run (calls : list call) :
  forall (st : process env) (inputs : list string),
    requests_accounted env st inputs ->
    requests_accounted env (run env calls st) (inputs ++ inputs_of calls).
Proof.
  induction calls as [|c calls IH]; intros st inputs H.
  - cbn [run fold_left inputs_of]. rewrite app_nil_r. exact H.
  - cbn [run fold_left]. fold (run env calls (perform env c st)).
    change (c :: calls) with ([c] ++ calls)%list.
    rewrite inputs_of_app, app_assoc.
    apply IH, requests_accounted_perform, H.
Qed.

(** X13.  Over any run of calls of the public methods from the definition
    of the class, every request sent went out with the one client the
    process built, for one of the inputs [get_response] was called with, and
    with the fixed model, seed, response format and system prompt; and
    there are no more requests than calls of [get_response]. *)
Theorem X13_requests_of_a_run (w : World env) (calls : list call) :
  (forall client params,
      In (client, params) (requested (run env calls (start env w))) ->
      constructed (run env calls (start env w)) = [client]
      /\ exists sanitized_input,
           In sanitized_input (inputs_of calls)
           /\ params
              = {| Params.model := "gpt-3.5-turbo";
                   Params.response_format :=
                     {| Params.type := "json_object" |};
                   Params.seed := 69;
                   Params.messages :=
                     [ {| Params.role := "system";
                          Params.content := get_gpt_prompt env |};
                       {| Params.role := "user";
                          Params.content := sanitized_input |} ] |})
  /\ length (requested (run env calls (start env w)))
     <= length (inputs_of calls).
Proof.
  assert (H0 : requests_accounted env (start env w) []).
  { split; [reflexivity|]. split; [intros client params []|]. cbn. lia. }
  destruct (requests_accounted_run calls (start env w) [] H0)
    as (_ & Hall & Hlen).
  cbn [app] in Hall, Hlen. split; [exact Hall|exact Hlen].
Qed.

(** *** Direct calls of [_initialize_client] *)

Lemma ranked_bound (st : process env) (c : OpenAI) :
  ranked env st -> In c (constructed st) ->
  object_id c < length (constructed st).
Proof.
  unfold ranked. intros Hr Hin.
  apply (in_map object_id) in Hin. rewrite Hr in Hin.
  apply in_seq in Hin. lia.
Qed.

(** X14.  [_initialize_client] does not look at the stored client: called
    when the secrets provider answers a key, it builds a client that is
    none of those built before, stores it in place of whatever was stored,
    and [get_client] returns the new one from then on. *)
Theorem X14_initialize_client_always_builds_anew (st : process env)
    (key : string) (w : World env) :
  ranked env st ->
  get_openai_key env (world st) = (Return key, w) ->
  exists client st1,
    _initialize_client env st = (Return client, st1)
    /\ api_key client = key
    /\ ~ In client (constructed st)
    /\ constructed st1 = (constructed st ++ [client])%list
    /\ _client_instance st1 = Some client
    /\ get_client env st1 = (Return client, st1).
Proof.
  intros Hr Hkey.
  unfold _initialize_client, bind, SecretsHandler_get_openai_key.
  rewrite Hkey. cbn.
  eexists. eexists. split; [reflexivity|].
  split; [reflexivity|]. split; [|split; [reflexivity|split; reflexivity]].
  intros Hin. apply (ranked_bound st _ Hr) in Hin. cbn in Hin. lia.
Qed.

Lemma latest_stored_initialize_client (st : process env) :
  latest_stored env st -> latest_stored env (snd (_initialize_client env st)).
Proof.
  intros [Hr Hl].
  unfold _initialize_client, bind, SecretsHandler_get_openai_key.
  destruct (get_openai_key env (world st)) as [[key|e] w];
    unfold OpenAI_, set_client_instance, ret; cbn [snd].
  - split.
    + unfold ranked in *. cbn [constructed].
      rewrite map_app, length_app, Hr. cbn [map length object_id].
      rewrite Nat.add_1_r, seq_S. reflexivity.
    + cbn [_client_instance constructed]. unfold latest.
      rewrite rev_app_distr. reflexivity.
  - split; assumption.
Qed.

Lemma latest_stored_get_client (st : process env) :
  latest_stored env st -> latest_stored env (snd (get_client env st)).
Proof.
  intros H. unfold get_client.
  destruct (_client_instance st) as [c|] eqn:Hi.
  - exact H.
  - apply latest_stored_initialize_client, H.
Qed.

Lemma latest_stored_perform_member (st : process env) (c : member_call) :
  latest_stored env st -> latest_stored env (perform_member env c st).
Proof.
  intros H. destruct c as [[|sanitized_input]| |]; cbn [perform_member perform].
  - apply latest_stored_get_client, H.
  - destruct (get_response_frame env st sanitized_input) as (Ha & Hb & _).
    pose proof (latest_stored_get_client st H) as [Hr Hl].
    unfold latest_stored, ranked in *. rewrite Ha, Hb. split; assumption.
  - apply latest_stored_initialize_client, H.
  - exact H.
Qed.

(** X15.  Over any run of uses of the class from its definition, direct
    calls of [_initialize_client] and attempts to instantiate the class
    included, the attribute holds the client built last (none when none
    was built) and the clients built are different objects. *)
Theorem X15_attribute_holds_the_latest_client (w : World env)
    (calls : list member_call) :
  _client_instance (run_members env calls (start env w))
  = latest (constructed (run_members env calls (start env w)))
  /\ NoDup (constructed (run_members env calls (start env w))).
Proof.
  assert (H : latest_stored env (run_members env calls (start env w))).
  { assert (H0 : latest_stored env (start env w)) by (split; reflexivity).
    revert H0. generalize (start env w).
    induction calls as [|c calls IH]; intros st H0; [exact H0|].
    cbn [run_members fold_left].
    fold (run_members env calls (perform_member env c st)).
    apply IH, latest_stored_perform_member, H0. }
  destruct H as [Hr Hl]. split; [exact Hl|].
  apply (NoDup_map_inv object_id). rewrite Hr. apply seq_NoDup.
Qed.

End Runs.

(** ** The further properties on actual runs *)

Lemma mock_repeating_remote_reply (found : option string)
    (sanitized_input : string) :
  remote_reply (mock_repeating found) (start (mock_repeating found) tt)
    sanitized_input found.
Proof. econstructor; reflexivity. Qed.

Lemma X1_witness :
  exists client st1,
    get_client (Mock.answering None) (Mock.fresh None) = (Return client, st1)
    /\ api_key client = "sk-test"
    /\ _client_instance st1 = Some client.
Proof.
  destruct (X1_first_get_client_builds_with_the_key
              (Mock.answering None) (Mock.fresh None) "sk-test" tt
              eq_refl eq_refl)
    as (client & st1 & Hc & Hk & Hi & _).
  exists client, st1. split; [exact Hc|split; [exact Hk|exact Hi]].
Defined.

Lemma X2_witness :
  fst (get_response mock_no_key "sad" (start mock_no_key tt))
  = Raise (Foreign "KeyError" "OPENAI_KEY").
Proof.
  rewrite (proj2 (X2_key_failure_leaves_no_trace
                    mock_no_key (start mock_no_key tt) "sad"
                    (Foreign "KeyError" "OPENAI_KEY") tt eq_refl eq_refl)).
  reflexivity.
Defined.

Lemma X3_witness :
  fst (get_response mock_rate_limited "sad" (start mock_rate_limited tt))
  = Raise (Foreign "RateLimitError" "429").
Proof.
  apply (X3_remote_failure_propagates
           mock_rate_limited (start mock_rate_limited tt) "sad"
           {| object_id := 0; api_key := "sk-test" |}
           _ (Foreign "RateLimitError" "429") tt eq_refl eq_refl).
Defined.

Lemma X4_witness :
  fst (get_response mock_no_choice "sad" (start mock_no_choice tt))
  = Raise IndexError.
Proof.
  apply (X4_reply_without_choices_raises_IndexError
           mock_no_choice (start mock_no_choice tt) "sad"
           {| object_id := 0; api_key := "sk-test" |}
           _ _ tt eq_refl eq_refl eq_refl).
Defined.

Lemma X5_witness :
  fst (Mock.call (Some "null") "sad") = Raise TypeError.
Proof.
  apply (X5_scalar_reply_raises_TypeError
           (Mock.answering (Some "null")) (Mock.fresh _) "sad" "null" PyNone).
  - apply mock_remote_reply.
  - vm_compute. reflexivity.
  - left. reflexivity.
Defined.

Lemma X6_witness :
  fst (Mock.call (Some (Mock.json_text "['rock', 'genres']")) "sad")
  = Raise TypeError
  /\ fst (Mock.call (Some (Mock.json_text "['rock', 'pop']")) "sad")
     = Raise (ValueError
                ("Something went wrong retrieving a response from GPT. "
                 ++ "The parsed JSON ['rock', 'pop'] "
                 ++ "does not contain the `genres` key.")).
Proof.
  split.
  - apply (proj1 (X6_list_or_string_reply
                    (Mock.answering
                       (Some (Mock.json_text "['rock', 'genres']")))
                    (Mock.fresh _) "sad" _ (mock_remote_reply _ _))
             [PyStr "rock"; PyStr "genres"]).
    + vm_compute. reflexivity.
    + right. left. reflexivity.
  - apply (proj1 (X6_list_or_string_reply
                    (Mock.answering (Some (Mock.json_text "['rock', 'pop']")))
                    (Mock.fresh _) "sad" _ (mock_remote_reply _ _))
             [PyStr "rock"; PyStr "pop"]).
    + vm_compute. reflexivity.
    + intros [H|[H|[]]]; discriminate H.
Defined.

Lemma X7_witness :
  fst (Mock.call (Some (Mock.json_text "{'mood':'happy'}")) "sad")
  <> Raise (KeyError "genres").
Proof.
  apply (proj2 (X7_exceptions_after_a_reply
                  (Mock.answering (Some (Mock.json_text "{'mood':'happy'}")))
                  (Mock.fresh _) "sad" _ (mock_remote_reply _ _))
           "genres").
Defined.

Lemma X8_witness :
  exists text d,
    Some (Mock.json_text "{'genres': ['pop']}") = Some text
    /\ text <> ""
    /\ Json.loads Json.default_limits text = Return (PyDict d)
    /\ dict_get "genres" d = Some (PyList [PyStr "pop"]).
Proof.
  apply (X8_returned_value_comes_from_an_object
           (Mock.answering (Some (Mock.json_text "{'genres': ['pop']}")))
           (Mock.fresh _) "sad" _ (PyList [PyStr "pop"])
           (mock_remote_reply _ _)).
  vm_compute. reflexivity.
Defined.

Lemma X9_witness :
  fst (Mock.call (Some (Mock.json_text "{'genres': ")) "sad")
  = Raise (ValueError not_json_message).
Proof.
  apply (proj1 (X9_messages_name_their_cause
                  (Mock.answering (Some (Mock.json_text "{'genres': ")))
                  (Mock.fresh _) "sad" _ (mock_remote_reply _ _))).
  exists (Mock.json_text "{'genres': "), JSONDecodeError.
  split; [reflexivity|split; [discriminate|vm_compute; reflexivity]].
Defined.

Lemma X10_witness :
  decoded (snd (Mock.call (Some "not json") "sad")) = [Some "not json"].
Proof.
  apply (X10_content_decoded_once
           (Mock.answering (Some "not json")) (Mock.fresh _) "sad" "not json").
  - apply mock_remote_reply.
  - discriminate.
Defined.

Lemma X11_witness :
  _client_instance (snd (Mock.call (Some "not json") "sad"))
  = Some {| object_id := 0; api_key := "sk-test" |}.
Proof.
  apply (X11_get_response_stores_its_client
           (Mock.answering (Some "not json")) (Mock.fresh _) _ "sad"
           {| object_id := 0; api_key := "sk-test" |} eq_refl).
Defined.

Lemma X12_witness :
  fst (get_response (mock_repeating (Some (Mock.json_text "{'genres': []}")))
         "sad"
         (start (mock_repeating (Some (Mock.json_text "{'genres': []}"))) tt))
  = fst (get_response
           (mock_repeating (Some (Mock.json_text "{'genres': []}")))
           "glad"
           (start (mock_repeating (Some (Mock.json_text "{'genres': []}")))
              tt)).
Proof.
  apply (X12_only_the_first_choice_counts
           (mock_repeating (Some (Mock.json_text "{'genres': []}")))
           (start (mock_repeating (Some (Mock.json_text "{'genres': []}"))) tt)
           (start (mock_repeating (Some (Mock.json_text "{'genres': []}"))) tt)
           "sad" "glad"
           (Some (Mock.json_text "{'genres': []}"))).
  - apply mock_repeating_remote_reply.
  - apply mock_repeating_remote_reply.
Defined.

Lemma X13_witness :
  constructed
    (run (Mock.answering None)
       [Call_get_response "sad"; Call_get_client; Call_get_response "glad"]
       (start (Mock.answering None) tt))
  = [ {| object_id := 0; api_key := "sk-test" |} ].
Proof.
  apply (proj1 (X13_requests_of_a_run (Mock.answering None) tt
                  [Call_get_response "sad"; Call_get_client;
                   Call_get_response "glad"])
           {| object_id := 0; api_key := "sk-test" |}
           (request_for (Mock.answering None) "glad")).
  right. left. reflexivity.
Defined.

Lemma X14_witness :
  exists client st1,
    _initialize_client (Mock.answering None)
      (snd (get_client (Mock.answering None) (Mock.fresh None)))
    = (Return client, st1)
    /\ ~ In client
           (constructed
              (snd (get_client (Mock.answering None) (Mock.fresh None))))
    /\ _client_instance st1 = Some client.
Proof.
  destruct (X14_initialize_client_always_builds_anew
              (Mock.answering None)
              (snd (get_client (Mock.answering None) (Mock.fresh None)))
              "sk-test" tt eq_refl eq_refl)
    as (client & st1 & Hc & _ & Hnew & _ & Hi & _).
  exists client, st1. split; [exact Hc|split; [exact Hnew|exact Hi]].
Defined.
